(** * hf_dl: downloading one directory of a Hugging Face repository

    A shallow embedding of [src/hf_dl.py] ([src/hf_download.py] is the same
    program with Japanese comments): the URL parser [parse_hf_url], the
    fetcher [download_hf_directory] and the entry point [main].

    Python strings are modelled as [string]; [print], the call of
    [snapshot_download] and [parser.print_help()] are recorded in a trace of
    events; Python exceptions are values of [exn] carried in a result type.
    The functions of Python's standard library and of [huggingface_hub] that
    the program calls ([urlparse], [os.path.expanduser], [os.path.abspath],
    [snapshot_download]) are parameters of the development. *)

From Stdlib Require Import String Ascii List Bool Arith ZArith Lia.
Import ListNotations.

Local Open Scope list_scope.
Local Open Scope string_scope.

(** ** Python string methods used by the program *)

Module PyStr.

Definition slash : ascii := "/"%char.
Definition underscore : ascii := "_"%char.

Definition is_empty (s : string) : bool :=
  match s with
  | EmptyString => true
  | String _ _ => false
  end.

(** [s.lstrip(c)] for a one-character argument. *)
Fixpoint lstrip (c : ascii) (s : string) : string :=
  match s with
  | EmptyString => EmptyString
  | String a s' => if Ascii.eqb a c then lstrip c s' else s
  end.

(** [s.rstrip(c)] for a one-character argument. *)
Fixpoint rstrip (c : ascii) (s : string) : string :=
  match s with
  | EmptyString => EmptyString
  | String a s' =>
      let r := rstrip c s' in
      if is_empty r && Ascii.eqb a c then EmptyString else String a r
  end.

(** [s.strip(c)]: both ends. *)
Definition strip (c : ascii) (s : string) : string :=
  rstrip c (lstrip c s).

(** [s.split(c)] with an explicit separator: the empty string gives the
    one-element list [[""]], and empty fields are kept. *)
Fixpoint split (c : ascii) (s : string) : list string :=
  match s with
  | EmptyString => [EmptyString]
  | String a s' =>
      if Ascii.eqb a c then EmptyString :: split c s'
      else match split c s' with
           | h :: t => String a h :: t
           | [] => [String a EmptyString]
           end
  end.

(** [sep.join(l)]. *)
Fixpoint join (sep : string) (l : list string) : string :=
  match l with
  | [] => EmptyString
  | [x] => x
  | x :: rest => x ++ sep ++ join sep rest
  end.

(** [s.replace(a, b)] for one-character [a] and [b]. *)
Fixpoint replace (a b : ascii) (s : string) : string :=
  match s with
  | EmptyString => EmptyString
  | String x s' => String (if Ascii.eqb x a then b else x) (replace a b s')
  end.

(** [s.startswith(c)] for a one-character argument. *)
Definition startswith (c : ascii) (s : string) : bool :=
  match s with
  | String a _ => Ascii.eqb a c
  | EmptyString => false
  end.

(** [s.endswith(c)] for a one-character argument. *)
Fixpoint endswith (c : ascii) (s : string) : bool :=
  match s with
  | EmptyString => false
  | String a EmptyString => Ascii.eqb a c
  | String _ s' => endswith c s'
  end.

(** [c in s]. *)
Fixpoint contains (c : ascii) (s : string) : bool :=
  match s with
  | EmptyString => false
  | String a s' => Ascii.eqb a c || contains c s'
  end.

(** [s[1:]] *)
Definition tail (s : string) : string :=
  match s with
  | EmptyString => EmptyString
  | String _ s' => s'
  end.

(** [(s[:i], s[i:])] for the first [i] with [p s[i]], or [(s, "")]. *)
Fixpoint break (p : ascii -> bool) (s : string) : string * string :=
  match s with
  | EmptyString => (EmptyString, EmptyString)
  | String a s' =>
      if p a then (EmptyString, s)
      else let (x, y) := break p s' in (String a x, y)
  end.

End PyStr.

(** ** Exceptions and results *)

(** The classes that the program's handlers tell apart: [except ValueError]
    in [main], [except Exception] in [download_hf_directory].  A
    [ValueError] (or a subclass, such as [huggingface_hub]'s
    [HFValidationError]) is an [Exception]; [KeyboardInterrupt] and
    [SystemExit] are [BaseException]s that are no [Exception]. *)
Inductive exn_class : Type :=
| ValueError
| OtherException
| BaseExceptionOnly.

Record exn : Type := Exn { exn_cls : exn_class; exn_msg : string }.

Definition isinstance_ValueError (e : exn) : bool :=
  match exn_cls e with
  | ValueError => true
  | _ => false
  end.

Definition isinstance_Exception (e : exn) : bool :=
  match exn_cls e with
  | ValueError | OtherException => true
  | BaseExceptionOnly => false
  end.

(** [str(e)] *)
Definition str (e : exn) : string := exn_msg e.

Inductive result (A : Type) : Type :=
| Ok (a : A)
| Raise (e : exn).

Arguments Ok {A} a.
Arguments Raise {A} e.

(** ** The URL parser *)

(** The six components of [urllib.parse.ParseResult]. *)
Record ParseResult : Type := mkParseResult {
  scheme : string;
  netloc : string;
  path : string;
  params : string;
  query : string;
  fragment : string
}.

Section Parser.

(** [urllib.parse.urlparse]; it raises [ValueError] on some inputs (an
    unbalanced bracket in the host, for one). *)
Variable urlparse : string -> result ParseResult.

(** [parsed.path.strip("/").split("/")] *)
Definition path_parts (parsed : ParseResult) : list string :=
  PyStr.split PyStr.slash (PyStr.strip PyStr.slash (path parsed)).

Definition parse_hf_url (url : string) : result (string * string) :=
  match urlparse url with
  | Raise e => Raise e
  | Ok parsed =>
      if netloc parsed =? "huggingface.co" then
        let path_parts := path_parts parsed in
        if (length path_parts <? 2)%nat then
          Raise (Exn ValueError "Invalid Hugging Face URL format")
        else
          let repo_id :=
            nth 0 path_parts "" ++ "/" ++ nth 1 path_parts "" in
          let directory :=
            if (4 <? length path_parts)%nat && (nth 2 path_parts "" =? "tree")
            then PyStr.join "/" (skipn 4 path_parts)
            else if (2 <? length path_parts)%nat
                 then PyStr.join "/" (skipn 2 path_parts)
                 else "" in
          Ok (repo_id, directory)
      else Raise (Exn ValueError "URL must be from huggingface.co")
  end.

End Parser.

(** ** Effects: printed lines and calls of the transfer operation *)

(** The keyword arguments [download_hf_directory] passes to
    [snapshot_download]. *)
Record DownloadRequest : Type := mkRequest {
  req_repo_id : string;
  req_allow_patterns : list string;
  req_local_dir : string;
  req_token : option string;
  req_max_workers : Z
}.

Inductive event : Type :=
| Print (line : string)
| PrintHelp
| SnapshotDownload (req : DownloadRequest).

(** A computation yields a value or raises, and emits events on the way;
    the events emitted before an exception are kept. *)
Definition M (A : Type) : Type := (result A * list event)%type.

Definition ret {A} (a : A) : M A := (Ok a, []).

Definition raise {A} (e : exn) : M A := (Raise e, []).

Definition bind {A B} (m : M A) (k : A -> M B) : M B :=
  match m with
  | (Ok a, t) => let (r, t') := k a in (r, (t ++ t')%list)
  | (Raise e, t) => (Raise e, t)
  end.

Notation "x <- m ;; k" := (bind m (fun x => k))
  (at level 61, m at next level, right associativity).
Notation "m ;;; k" := (bind m (fun _ => k))
  (at level 61, right associativity).

Definition print (line : string) : M unit := (Ok tt, [Print line]).

Definition print_help : M unit := (Ok tt, [PrintHelp]).

(** [try: body  except C as e: handler e], where [catches] decides
    [isinstance(e, C)]. *)
Definition try_except {A} (body : M A) (catches : exn -> bool)
    (handler : exn -> M A) : M A :=
  match body with
  | (Raise e, t) =>
      if catches e then let (r, t') := handler e in (r, (t ++ t')%list)
      else (Raise e, t)
  | (Ok a, t) => (Ok a, t)
  end.

Definition lift {A} (r : result A) : M A := (r, []).

Definition outcome {A} (m : M A) : result A := fst m.
Definition events {A} (m : M A) : list event := snd m.

(** No transfer was attempted. *)
Fixpoint no_network (t : list event) : bool :=
  match t with
  | [] => true
  | SnapshotDownload _ :: _ => false
  | _ :: t' => no_network t'
  end.

(** The namespace [parser.parse_args()] returns in [main]. *)
Record Args : Type := mkArgs {
  arg_url : string;
  arg_local_dir : option string;
  arg_output_dir : option string;
  arg_token : option string;
  arg_max_workers : Z
}.

(** The transfers a trace contains, in order. *)
Fixpoint requests (t : list event) : list DownloadRequest :=
  match t with
  | [] => []
  | SnapshotDownload req :: t' => req :: requests t'
  | _ :: t' => requests t'
  end.

(** ** [os.path] *)

Module OsPath.

(** [posixpath.join(a, b)]: an absolute [b] discards [a]. *)
Definition join (a b : string) : string :=
  if PyStr.startswith PyStr.slash b then b
  else if PyStr.is_empty a || PyStr.endswith PyStr.slash a then a ++ b
  else a ++ "/" ++ b.

Definition isabs (p : string) : bool := PyStr.startswith PyStr.slash p.

(** One turn of the loop of [posixpath.normpath] over the components:
    [""] and ["."] are skipped, [".."] removes the component before it
    (and is dropped at the root), except that a relative path keeps its
    leading [".."]s. *)
Definition norm_step (initial_slashes : bool) (new_comps : list string)
    (comp : string) : list string :=
  if (comp =? "") || (comp =? ".") then new_comps
  else if negb (comp =? "..")
          || (negb initial_slashes && (length new_comps =? 0)%nat)
          || (negb (length new_comps =? 0)%nat
              && (last new_comps "" =? ".."))
       then (new_comps ++ [comp])%list
       else removelast new_comps.

(** The components [normpath] keeps. *)
Definition norm_comps (p : string) : list string :=
  fold_left (norm_step (isabs p)) (PyStr.split PyStr.slash p) [].

(** [posixpath.normpath(path)] *)
Definition normpath (p : string) : string :=
  if PyStr.is_empty p then "."
  else
    let root :=
      match p with
      | String "/" (String "/" (String "/" _)) => "/"
      | String "/" (String "/" _) => "//"
      | String "/" _ => "/"
      | _ => ""
      end in
    let r := root ++ PyStr.join "/" (norm_comps p) in
    if PyStr.is_empty r then "." else r.

(** What [expanduser] and [abspath] read from the process: the home
    directory of the user, of other users, and the working directory. *)
Record env : Type := mkEnv {
  home : string;
  home_of : string -> option string;
  cwd : string
}.

(** [posixpath.expanduser(path)] *)
Definition expanduser (E : env) (p : string) : string :=
  if negb (PyStr.startswith "~" p) then p
  else
    let (name, rest) :=
      PyStr.break (fun a => Ascii.eqb a "/") (PyStr.tail p) in
    let userhome :=
      if PyStr.is_empty name then Some (home E) else home_of E name in
    match userhome with
    | None => p
    | Some userhome =>
        let r := PyStr.rstrip PyStr.slash userhome ++ rest in
        if PyStr.is_empty r then "/" else r
    end.

(** [posixpath.abspath(path)] *)
Definition abspath (E : env) (p : string) : string :=
  normpath (if isabs p then p else join (cwd E) p).

Fixpoint is_strict_prefix (a d : list string) : bool :=
  match a, d with
  | [], _ :: _ => true
  | x :: a', y :: d' => (x =? y) && is_strict_prefix a' d'
  | _, _ => false
  end.

(** [a] is a strict ancestor of [d]: both absolute or both relative, and
    the normalised components of [a] a strict prefix of those of [d]. *)
Definition is_strict_ancestor (a d : string) : bool :=
  Bool.eqb (isabs a) (isabs d)
  && is_strict_prefix (norm_comps a) (norm_comps d).

(** A relative name that stays below the directory it is joined to: it
    has no [".."] and at least one component besides [""] and ["."]. *)
Definition plain_relative (name : string) : bool :=
  negb (isabs name)
  && forallb (fun comp => negb (comp =? ".."))
             (PyStr.split PyStr.slash name)
  && existsb (fun comp => negb ((comp =? "") || (comp =? ".")))
             (PyStr.split PyStr.slash name).

End OsPath.

(** The components [norm_step] lets through when there is no [".."]. *)
Definition kept (comp : string) : bool :=
  negb ((comp =? "") || (comp =? ".")).

(** ** The directory fetcher *)

Section Fetcher.

(** [os.path.expanduser] and [os.path.abspath] read the process
    environment (the home directory, the working directory). *)
Variable expanduser : string -> string.
Variable abspath : string -> string.

(** [huggingface_hub.snapshot_download]: the path of the downloaded
    snapshot, or an exception. *)
Variable snapshot_download : DownloadRequest -> result string.

Definition call_snapshot_download (req : DownloadRequest) : M string :=
  (snapshot_download req, [SnapshotDownload req]).

(** The folder name derived when [local_dir is None]. *)
Definition default_local_dir (repo_id directory : string) : string :=
  let repo_name := PyStr.replace PyStr.slash PyStr.underscore repo_id in
  let dir_name := PyStr.replace PyStr.slash PyStr.underscore directory in
  repo_name ++ "_" ++ dir_name.

(** The value of [local_dir] after the first two [if]s of the body. *)
Definition destination (repo_id directory : string)
    (local_dir output_dir : option string) : string :=
  let local_dir :=
    match local_dir with
    | None => default_local_dir repo_id directory
    | Some l => l
    end in
  match output_dir with
  | Some output_dir =>
      let output_dir := abspath (expanduser output_dir) in
      OsPath.join output_dir local_dir
  | None => local_dir
  end.

(** The one request [download_hf_directory] makes. *)
Definition request_of (repo_id directory : string)
    (local_dir output_dir token : option string) (max_workers : Z)
    : DownloadRequest :=
  let d := PyStr.strip PyStr.slash directory in
  mkRequest repo_id [d ++ "/**/*"; d ++ "/*"]
    (destination repo_id directory local_dir output_dir) token max_workers.

Definition downloading_line (repo_id directory : string)
    (local_dir output_dir : option string) : string :=
  "Downloading from " ++ repo_id ++ "/"
  ++ PyStr.strip PyStr.slash directory ++ "/ to "
  ++ destination repo_id directory local_dir output_dir.

Definition download_hf_directory (repo_id directory : string)
    (local_dir output_dir token : option string) (max_workers : Z)
    : M string :=
  try_except
    (let local_dir := destination repo_id directory local_dir output_dir in
     let directory := PyStr.strip PyStr.slash directory in
     print ("Downloading from " ++ repo_id ++ "/" ++ directory
            ++ "/ to " ++ local_dir) ;;;
     let allow_patterns := [directory ++ "/**/*"; directory ++ "/*"] in
     downloaded_path <-
       call_snapshot_download
         (mkRequest repo_id allow_patterns local_dir token max_workers) ;;
     print ("Download completed! Files saved to: " ++ downloaded_path) ;;;
     ret downloaded_path)
    isinstance_Exception
    (fun e =>
       print ("Error downloading files: " ++ str e) ;;;
       raise e).

(** ** The entry point *)

Variable urlparse : string -> result ParseResult.

Definition main (args : Args) : M unit :=
  try_except
    (rd <- lift (parse_hf_url urlparse (arg_url args)) ;;
     let '(repo_id, directory) := rd in
     if PyStr.is_empty directory then
       print "Error: Please specify a directory in the URL" ;;;
       print "Example: https://huggingface.co/username/repo-name/tree/main/models" ;;;
       ret tt
     else
       print ("Repository: " ++ repo_id) ;;;
       print ("Directory: " ++ directory) ;;;
       download_hf_directory repo_id directory (arg_local_dir args)
         (arg_output_dir args) (arg_token args) (arg_max_workers args) ;;;
       ret tt)
    isinstance_ValueError
    (fun e =>
       print ("Error: " ++ str e) ;;;
       print_help).

End Fetcher.

(** ** A reference instance of [urlparse]

    The theorems below hold for every [urlparse].  To run the program on
    concrete URLs this module gives one, after CPython's
    [urllib.parse.urlsplit] and [urlparse] on ASCII input; the validation of
    a bracketed (IPv6) host and the NFKC check of the host are left out. *)

Module UrlLib.

Fixpoint all_chars (p : ascii -> bool) (s : string) : bool :=
  match s with
  | EmptyString => true
  | String a s' => p a && all_chars p s'
  end.

Fixpoint filter_chars (p : ascii -> bool) (s : string) : string :=
  match s with
  | EmptyString => EmptyString
  | String a s' =>
      if p a then String a (filter_chars p s') else filter_chars p s'
  end.

Fixpoint lstrip_chars (p : ascii -> bool) (s : string) : string :=
  match s with
  | EmptyString => EmptyString
  | String a s' => if p a then lstrip_chars p s' else s
  end.

Definition between (lo hi : nat) (a : ascii) : bool :=
  (lo <=? nat_of_ascii a)%nat && (nat_of_ascii a <=? hi)%nat.

Definition is_upper : ascii -> bool := between 65 90.
Definition is_lower : ascii -> bool := between 97 122.
Definition is_digit : ascii -> bool := between 48 57.
Definition is_alpha (a : ascii) : bool := is_upper a || is_lower a.

(** [c in scheme_chars] *)
Definition scheme_char (a : ascii) : bool :=
  is_alpha a || is_digit a
  || Ascii.eqb a "+" || Ascii.eqb a "-" || Ascii.eqb a ".".

(** [c in _WHATWG_C0_CONTROL_OR_SPACE] *)
Definition c0_control_or_space (a : ascii) : bool :=
  (nat_of_ascii a <=? 32)%nat.

(** [c in _UNSAFE_URL_BYTES_TO_REMOVE]: tab, carriage return, newline. *)
Definition unsafe_byte (a : ascii) : bool :=
  let n := nat_of_ascii a in
  (n =? 9)%nat || (n =? 13)%nat || (n =? 10)%nat.

Definition to_lower (a : ascii) : ascii :=
  if is_upper a then ascii_of_nat (nat_of_ascii a + 32) else a.

Fixpoint lower (s : string) : string :=
  match s with
  | EmptyString => EmptyString
  | String a s' => String (to_lower a) (lower s')
  end.

Definition uses_params : list string :=
  [""; "ftp"; "hdl"; "prospero"; "http"; "imap"; "https"; "shttp"; "rtsp";
   "rtspu"; "sip"; "sips"; "mms"; "sftp"; "tel"].

(** [url.split(c, 1)] when [c in url], as the pair of the two fields. *)
Definition split_once (c : ascii) (url : string) : string * string :=
  let (x, y) := PyStr.break (Ascii.eqb c) url in (x, PyStr.tail y).

(** The scheme, if [url] starts with one, and the rest. *)
Definition split_scheme (url : string) : string * string :=
  let (pre, rest) := PyStr.break (Ascii.eqb ":") url in
  match pre, rest with
  | String a _, String _ rest' =>
      if is_alpha a && all_chars scheme_char pre then (lower pre, rest')
      else (EmptyString, url)
  | _, _ => (EmptyString, url)
  end.

(** [_splitnetloc(url, 2)] when [url[:2] == "//"]. *)
Definition split_netloc (url : string) : string * string :=
  match url with
  | String "/" (String "/" rest) =>
      PyStr.break
        (fun a => Ascii.eqb a "/" || Ascii.eqb a "?" || Ascii.eqb a "#") rest
  | _ => (EmptyString, url)
  end.

Definition bad_brackets (netloc : string) : bool :=
  let l := PyStr.contains "[" netloc in
  let r := PyStr.contains "]" netloc in
  (l && negb r) || (r && negb l).

(** [_splitparams(url)] when [";" in url]: the split is at the first
    [";"] of the last path segment, if there is one. *)
Fixpoint splitparams (url : string) : string * string :=
  match url with
  | EmptyString => (EmptyString, EmptyString)
  | String a s' =>
      if negb (PyStr.contains "/" s') && Ascii.eqb a ";"
      then (EmptyString, s')
      else let (p, q) := splitparams s' in (String a p, q)
  end.

Definition urlparse (url : string) : result ParseResult :=
  let url := lstrip_chars c0_control_or_space url in
  let url := filter_chars (fun a => negb (unsafe_byte a)) url in
  let (scheme, url) := split_scheme url in
  let (netloc, url) := split_netloc url in
  if bad_brackets netloc then Raise (Exn ValueError "Invalid IPv6 URL")
  else
    let (url, fragment) :=
      if PyStr.contains "#" url then split_once "#" url
      else (url, EmptyString) in
    let (url, query) :=
      if PyStr.contains "?" url then split_once "?" url
      else (url, EmptyString) in
    let (url, params) :=
      if existsb (String.eqb scheme) uses_params && PyStr.contains ";" url
      then splitparams url
      else (url, EmptyString) in
    Ok (mkParseResult scheme netloc url params query fragment).

End UrlLib.

(** ** Concrete environments and transfers *)

(** The name joined to the base directory. *)
Definition local_dir_name (repo_id directory : string)
    (local_dir : option string) : string :=
  match local_dir with
  | None => default_local_dir repo_id directory
  | Some l => l
  end.

(** A machine with home directory /home/u, no other users, run in /work. *)
Definition posix_env : OsPath.env :=
  OsPath.mkEnv "/home/u" (fun _ => None) "/work".

Definition run (snapshot_download : DownloadRequest -> result string)
    (args : Args) : M unit :=
  main (OsPath.expanduser posix_env) (OsPath.abspath posix_env)
    snapshot_download UrlLib.urlparse args.

(** A transfer that succeeds, and one that refuses the repository name as
    [huggingface_hub] does, with [HFValidationError], a [ValueError]. *)
Definition transfer_ok (req : DownloadRequest) : result string :=
  Ok (req_local_dir req).

Definition transfer_invalid_repo (req : DownloadRequest) : result string :=
  Raise (Exn ValueError
           ("Cannot have -- or .. in repo_id: '" ++ req_repo_id req ++ "'.")).

(** A transfer that fails for want of a network, with an [Exception] that
    is no [ValueError], and one interrupted from the keyboard. *)
Definition transfer_offline (req : DownloadRequest) : result string :=
  Raise (Exn OtherException "Connection refused").

Definition transfer_interrupted (req : DownloadRequest) : result string :=
  Raise (Exn BaseExceptionOnly "").

(** URLs and arguments the instances below use. *)
Definition url_blocks : string :=
  "https://huggingface.co/acme/widgets/tree/main/vae/blocks".

Definition parsed_blocks : ParseResult :=
  mkParseResult "https" "huggingface.co" "/acme/widgets/tree/main/vae/blocks"
    "" "" "".

Definition url_plain : string := "https://huggingface.co/acme/widgets/vae".

Definition parsed_plain : ParseResult :=
  mkParseResult "https" "huggingface.co" "/acme/widgets/vae" "" "" "".

Definition args_blocks : Args := mkArgs url_blocks None None None 2.

(** * Facts about the string methods *)

Section PyStrFacts.

Variable c : ascii.

Lemma is_empty_true s : PyStr.is_empty s = true <-> s = "".
Proof. destruct s; simpl; split; congruence. Qed.

Lemma split_not_nil s : PyStr.split c s <> [].
Proof.
  destruct s as [| a s]; simpl; [discriminate |].
  destruct (Ascii.eqb a c); [discriminate |].
  destruct (PyStr.split c s); discriminate.
Qed.

(** Splitting distributes over a separator in the middle. *)
Lemma split_app_sep a b :
  PyStr.split c (a ++ String c b)
  = (PyStr.split c a ++ PyStr.split c b)%list.
Proof.
  induction a as [| x a IH]; simpl.
  - rewrite Ascii.eqb_refl. reflexivity.
  - rewrite IH. destruct (Ascii.eqb x c); [reflexivity |].
    destruct (PyStr.split c a) as [| h t] eqn:Hs.
    + exfalso. exact (split_not_nil _ Hs).
    + reflexivity.
Qed.

Lemma split_no_sep s : PyStr.contains c s = false -> PyStr.split c s = [s].
Proof.
  induction s as [| a s IH]; simpl; [reflexivity |].
  intros H. apply orb_false_iff in H. destruct H as [Ha Hs].
  rewrite Ha, (IH Hs). reflexivity.
Qed.

(** After [rstrip] the last field of a non-empty string is not empty. *)
Lemma rstrip_last s :
  PyStr.rstrip c s <> "" ->
  last (PyStr.split c (PyStr.rstrip c s)) "" <> "".
Proof.
  induction s as [| a s IH]; simpl; [congruence |].
  destruct (PyStr.rstrip c s) as [| b r] eqn:Hr.
  - simpl. destruct (Ascii.eqb a c) eqn:Ha; simpl; [congruence |].
    rewrite Ha. simpl. discriminate.
  - intros _. specialize (IH ltac:(discriminate)).
    cbn [PyStr.is_empty andb].
    pose proof (split_not_nil (String b r)) as Hne.
    change (PyStr.split c (String a (String b r)))
      with (if Ascii.eqb a c then "" :: PyStr.split c (String b r)
            else match PyStr.split c (String b r) with
                 | h :: t => String a h :: t
                 | [] => [String a ""]
                 end).
    destruct (PyStr.split c (String b r)) as [| h t]; [congruence |].
    destruct (Ascii.eqb a c); [exact IH |].
    destruct t; [discriminate | exact IH].
Qed.

Lemma join_empty (x : ascii) sep l :
  PyStr.join (String x sep) l = "" -> l = [] \/ l = [""].
Proof.
  destruct l as [| h [| h' t]]; simpl; intros H.
  - left. reflexivity.
  - right. congruence.
  - destruct h; discriminate.
Qed.

End PyStrFacts.

Lemma last_skipn {A} (l : list A) k d :
  k < length l -> last (skipn k l) d = last l d.
Proof.
  revert l. induction k as [| k IH]; intros l Hk; [reflexivity |].
  destruct l as [| a l]; simpl in Hk; [lia |].
  simpl skipn. rewrite IH by lia.
  destruct l; [simpl in Hk; lia | reflexivity].
Qed.

(** A path with at least two segments has no empty directory below any of
    its proper prefixes: [strip] removed the slash that could end it. *)
Lemma path_parts_join_skipn parsed k :
  2 <= length (path_parts parsed) ->
  k < length (path_parts parsed) ->
  PyStr.join "/" (skipn k (path_parts parsed)) <> "".
Proof.
  unfold path_parts, PyStr.strip. intros H2 Hk Hj.
  set (s := PyStr.lstrip PyStr.slash (path parsed)) in *.
  apply join_empty in Hj. destruct Hj as [Hj | Hj].
  - apply (f_equal (@length string)) in Hj. rewrite length_skipn in Hj.
    simpl in Hj. lia.
  - assert (Hl : last (PyStr.split PyStr.slash (PyStr.rstrip PyStr.slash s)) ""
                 = "").
    { rewrite <- (last_skipn _ k "" Hk), Hj. reflexivity. }
    destruct (string_dec (PyStr.rstrip PyStr.slash s) "") as [He | He].
    + rewrite He in H2. simpl in H2. lia.
    + exact (rstrip_last _ _ He Hl).
Qed.

(** * Properties of the URL parser *)

Section ParserFacts.

Variable urlparse : string -> result ParseResult.

Local Abbreviation parse := (parse_hf_url urlparse).

(** What [parse_hf_url] does once [urlparse] has returned, by cases on the
    host and the number of segments. *)
Lemma parse_hf_url_wrong_host url parsed :
  urlparse url = Ok parsed ->
  netloc parsed <> "huggingface.co" ->
  parse url = Raise (Exn ValueError "URL must be from huggingface.co").
Proof.
  intros Hp Hn. unfold parse_hf_url. rewrite Hp.
  apply String.eqb_neq in Hn. now rewrite Hn.
Qed.

Lemma parse_hf_url_too_short url parsed :
  urlparse url = Ok parsed ->
  netloc parsed = "huggingface.co" ->
  length (path_parts parsed) < 2 ->
  parse url = Raise (Exn ValueError "Invalid Hugging Face URL format").
Proof.
  intros Hp Hn Hl. unfold parse_hf_url. rewrite Hp, Hn, String.eqb_refl.
  apply Nat.ltb_lt in Hl. now rewrite Hl.
Qed.

Lemma parse_hf_url_accepts url parsed :
  urlparse url = Ok parsed ->
  netloc parsed = "huggingface.co" ->
  2 <= length (path_parts parsed) ->
  exists directory,
    parse url
    = Ok (nth 0 (path_parts parsed) "" ++ "/" ++ nth 1 (path_parts parsed) "",
          directory).
Proof.
  intros Hp Hn Hl. unfold parse_hf_url. rewrite Hp, Hn, String.eqb_refl.
  assert (H : (length (path_parts parsed) <? 2)%nat = false)
    by (apply Nat.ltb_ge; exact Hl).
  rewrite H. eexists. reflexivity.
Qed.

(** An exception of [urlparse] leaves [parse_hf_url] as it was raised. *)
Lemma parse_hf_url_urlparse_raises url e :
  urlparse url = Raise e -> parse url = Raise e.
Proof. intros H. unfold parse_hf_url. now rewrite H. Qed.

(** The result is a function of the host and the path alone. *)
Lemma parse_hf_url_netloc_path u1 u2 p1 p2 :
  urlparse u1 = Ok p1 ->
  urlparse u2 = Ok p2 ->
  netloc p1 = netloc p2 ->
  path p1 = path p2 ->
  parse u1 = parse u2.
Proof.
  intros H1 H2 Hn Hpath. unfold parse_hf_url, path_parts.
  rewrite H1, H2, Hn, Hpath. reflexivity.
Qed.

(** C1: for a URL whose host is huggingface.co and whose stripped path has
    more than 4 segments, the third being "tree", [parse_hf_url] returns
    the first two segments joined by "/" as the repository and the segments
    from the fifth on joined by "/" as the directory; the branch name
    (the fourth segment) is dropped. *)
Theorem parse_hf_url_tree_branch url parsed :
  urlparse url = Ok parsed ->
  netloc parsed = "huggingface.co" ->
  4 < length (path_parts parsed) ->
  nth 2 (path_parts parsed) "" = "tree" ->
  parse url
  = Ok (nth 0 (path_parts parsed) "" ++ "/" ++ nth 1 (path_parts parsed) "",
        PyStr.join "/" (skipn 4 (path_parts parsed))).
Proof.
  intros Hp Hn Hl Ht. unfold parse_hf_url.
  rewrite Hp, Hn, String.eqb_refl, Ht.
  assert (H2 : (length (path_parts parsed) <? 2)%nat = false)
    by (apply Nat.ltb_ge; lia).
  assert (H4 : (4 <? length (path_parts parsed))%nat = true)
    by (apply Nat.ltb_lt; exact Hl).
  rewrite H2, H4. reflexivity.
Qed.

(** C2: for a URL whose host is huggingface.co and whose stripped path is
    exactly the four segments ns, repo, "tree", branch, the directory
    returned is "tree/" followed by the branch: four segments are not more
    than four, so the second case of the directory extraction applies. *)
Theorem parse_hf_url_four_segments url parsed ns repo branch :
  urlparse url = Ok parsed ->
  netloc parsed = "huggingface.co" ->
  path_parts parsed = [ns; repo; "tree"; branch] ->
  parse url = Ok (ns ++ "/" ++ repo, "tree/" ++ branch).
Proof.
  intros Hp Hn Hparts. unfold parse_hf_url.
  rewrite Hp, Hn, String.eqb_refl, Hparts. reflexivity.
Qed.

(** C3: once [urlparse] has split the URL, [parse_hf_url] raises a
    [ValueError] exactly when the host is not huggingface.co, or the host
    is huggingface.co and the stripped path has fewer than 2 segments; in
    every other case it returns a pair. *)
Theorem parse_hf_url_raises_iff url parsed :
  urlparse url = Ok parsed ->
  let too_few :=
    netloc parsed <> "huggingface.co"
    \/ (netloc parsed = "huggingface.co"
        /\ length (path_parts parsed) < 2) in
  ((exists e, parse url = Raise e /\ isinstance_ValueError e = true)
   <-> too_few)
  /\ ((exists repo_id directory, parse url = Ok (repo_id, directory))
      <-> ~ too_few).
Proof.
  intros Hp too_few. subst too_few.
  destruct (string_dec (netloc parsed) "huggingface.co") as [Hn | Hn].
  - destruct (Nat.lt_ge_cases (length (path_parts parsed)) 2) as [Hl | Hl].
    + pose proof (parse_hf_url_too_short _ _ Hp Hn Hl) as Hr.
      split; split.
      * intros _. right. split; assumption.
      * intros _. eexists. split; [exact Hr | reflexivity].
      * intros [r [d Hd]]. rewrite Hr in Hd. discriminate.
      * intros Hc. exfalso. apply Hc. right. split; assumption.
    + destruct (parse_hf_url_accepts _ _ Hp Hn Hl) as [d Hr].
      split; split.
      * intros [e [He _]]. rewrite Hr in He. discriminate.
      * intros [Hc | [_ Hc]]; [contradiction | lia].
      * intros _ [Hc | [_ Hc]]; [contradiction | lia].
      * intros _. eexists. eexists. exact Hr.
  - pose proof (parse_hf_url_wrong_host _ _ Hp Hn) as Hr.
    split; split.
    + intros _. left. exact Hn.
    + intros _. eexists. split; [exact Hr | reflexivity].
    + intros [r [d Hd]]. rewrite Hr in Hd. discriminate.
    + intros Hc. exfalso. apply Hc. left. exact Hn.
Qed.

(** C10: two URLs that [urlparse] splits into the same host and the same
    path, whatever their scheme, query and fragment, are treated alike:
    [parse_hf_url] returns the same pair for both, or raises for both. *)
Theorem parse_hf_url_host_path_only u1 u2 p1 p2 :
  urlparse u1 = Ok p1 ->
  urlparse u2 = Ok p2 ->
  netloc p1 = netloc p2 ->
  path p1 = path p2 ->
  (exists rd, parse u1 = Ok rd /\ parse u2 = Ok rd)
  \/ (exists e1 e2, parse u1 = Raise e1 /\ parse u2 = Raise e2).
Proof.
  intros H1 H2 Hn Hpath.
  pose proof (parse_hf_url_netloc_path _ _ _ _ H1 H2 Hn Hpath) as Heq.
  destruct (parse u1) as [rd | e] eqn:Hr.
  - left. exists rd. split; [reflexivity | symmetry; exact Heq].
  - right. exists e, e. split; [reflexivity | symmetry; exact Heq].
Qed.

End ParserFacts.

(** * Facts about [os.path.join] and the derived folder name *)

Lemma contains_app c a b :
  PyStr.contains c (a ++ b) = PyStr.contains c a || PyStr.contains c b.
Proof.
  induction a as [| x a IH]; simpl; [reflexivity |].
  rewrite IH. now rewrite orb_assoc.
Qed.

Lemma contains_replace a b s :
  a <> b -> PyStr.contains a (PyStr.replace a b s) = false.
Proof.
  intros Hab. induction s as [| x s IH]; simpl; [reflexivity |].
  rewrite IH, orb_false_r.
  destruct (Ascii.eqb x a) eqn:Hx; [| exact Hx].
  apply Ascii.eqb_neq. congruence.
Qed.

Lemma append_inj_l (s x y : string) : s ++ x = s ++ y -> x = y.
Proof.
  induction s as [| a s IH]; simpl; intros H; [exact H |].
  injection H as H. exact (IH H).
Qed.

Lemma startswith_app c a b :
  a <> "" -> PyStr.startswith c (a ++ b) = PyStr.startswith c a.
Proof. destruct a; simpl; congruence. Qed.

Lemma endswith_inv c s :
  PyStr.endswith c s = true -> exists s', s = s' ++ String c "".
Proof.
  induction s as [| a s IH]; simpl; [discriminate |].
  destruct s as [| b s].
  - intros H. apply Ascii.eqb_eq in H. subst. exists "". reflexivity.
  - intros H. destruct (IH H) as [s' Hs']. exists (String a s').
    simpl. now rewrite <- Hs'.
Qed.

Lemma append_assoc (a b d : string) : (a ++ b) ++ d = a ++ b ++ d.
Proof. induction a as [| x a IH]; simpl; [reflexivity | now rewrite IH]. Qed.

Lemma fold_norm_step_plain i comps acc :
  forallb (fun comp => negb (comp =? "..")) comps = true ->
  fold_left (OsPath.norm_step i) comps acc = (acc ++ filter kept comps)%list.
Proof.
  revert acc. induction comps as [| x comps IH]; intros acc H; simpl.
  - now rewrite app_nil_r.
  - simpl in H. apply andb_true_iff in H. destruct H as [Hx H].
    rewrite (IH _ H). unfold OsPath.norm_step, kept.
    destruct ((x =? "") || (x =? ".")); simpl; [reflexivity |].
    rewrite Hx. simpl. now rewrite <- List.app_assoc.
Qed.

Lemma is_strict_prefix_app a d :
  d <> [] -> OsPath.is_strict_prefix a (a ++ d)%list = true.
Proof.
  intros Hd. induction a as [| x a IH]; simpl.
  - destruct d; [contradiction | reflexivity].
  - now rewrite String.eqb_refl, IH.
Qed.

Lemma is_strict_prefix_irrefl a : OsPath.is_strict_prefix a a = false.
Proof.
  induction a as [| x a IH]; simpl; [reflexivity |].
  now rewrite IH, andb_false_r.
Qed.

Lemma existsb_filter_not_nil {A} (f : A -> bool) l :
  existsb f l = true -> filter f l <> [].
Proof.
  induction l as [| x l IH]; simpl; [discriminate |].
  destruct (f x); [discriminate | exact IH].
Qed.

(** The components of a joined path are those of the base, then those of
    the name, when the name is relative. *)
Lemma split_join base name :
  OsPath.isabs name = false ->
  exists pre,
    fold_left (OsPath.norm_step (OsPath.isabs base)) pre []
    = OsPath.norm_comps base
    /\ PyStr.split PyStr.slash (OsPath.join base name)
       = (pre ++ PyStr.split PyStr.slash name)%list
    /\ OsPath.isabs (OsPath.join base name) = OsPath.isabs base.
Proof.
  intros Hrel. unfold OsPath.join.
  unfold OsPath.isabs in Hrel. rewrite Hrel.
  destruct base as [| b0 base'].
  - exists []. simpl. repeat split; try reflexivity. exact Hrel.
  - cbn [PyStr.is_empty orb].
    destruct (PyStr.endswith PyStr.slash (String b0 base')) eqn:He.
    + destruct (endswith_inv _ _ He) as [s' Hs'].
      exists (PyStr.split PyStr.slash s'). rewrite Hs'.
      rewrite append_assoc. cbn [append].
      rewrite split_app_sep. repeat split.
      * unfold OsPath.norm_comps. rewrite split_app_sep, fold_left_app.
        reflexivity.
      * unfold OsPath.isabs. destruct s'; reflexivity.
    + exists (PyStr.split PyStr.slash (String b0 base')).
      change ("/" ++ name) with (String PyStr.slash name).
      rewrite split_app_sep. repeat split; reflexivity.
Qed.

(** A relative name without [".."] lands strictly below the base. *)
Lemma join_plain_relative base name :
  OsPath.plain_relative name = true ->
  OsPath.is_strict_ancestor base (OsPath.join base name) = true.
Proof.
  unfold OsPath.plain_relative. intros H.
  apply andb_true_iff in H. destruct H as [H Hex].
  apply andb_true_iff in H. destruct H as [Hrel Hall].
  apply negb_true_iff in Hrel.
  destruct (split_join base name Hrel) as [pre [Hpre [Hsplit Habs]]].
  unfold OsPath.is_strict_ancestor. rewrite Habs, eqb_reflx. simpl.
  unfold OsPath.norm_comps at 2. rewrite Habs, Hsplit, fold_left_app, Hpre.
  rewrite (fold_norm_step_plain _ _ _ Hall).
  apply is_strict_prefix_app. apply existsb_filter_not_nil. exact Hex.
Qed.

Lemma default_local_dir_plain repo_id directory :
  OsPath.plain_relative (default_local_dir repo_id directory) = true.
Proof.
  unfold default_local_dir.
  set (r := PyStr.replace PyStr.slash PyStr.underscore repo_id).
  set (d := PyStr.replace PyStr.slash PyStr.underscore directory).
  assert (Hns : PyStr.contains PyStr.slash (r ++ "_" ++ d) = false).
  { rewrite !contains_app. unfold r, d.
    rewrite !contains_replace by discriminate. reflexivity. }
  assert (Hu : PyStr.contains PyStr.underscore (r ++ "_" ++ d) = true).
  { rewrite !contains_app. simpl. now rewrite orb_true_r. }
  unfold OsPath.plain_relative, OsPath.isabs.
  rewrite (split_no_sep _ _ Hns).
  destruct (r ++ "_" ++ d) as [| a s] eqn:Hn; [discriminate |].
  assert (Ha : PyStr.startswith PyStr.slash (String a s) = false).
  { simpl in Hns |- *. apply orb_false_iff in Hns. tauto. }
  assert (E1 : (String a s =? "..") = false).
  { apply String.eqb_neq. intros E. rewrite E in Hu. discriminate. }
  assert (E2 : (String a s =? ".") = false).
  { apply String.eqb_neq. intros E. rewrite E in Hu. discriminate. }
  assert (E0 : (String a s =? "") = false) by reflexivity.
  rewrite Ha. cbn [forallb existsb]. rewrite E0, E1, E2. reflexivity.
Qed.

(** * Properties of the fetcher and of [main] *)

Section ProgramFacts.

Variable expanduser : string -> string.
Variable abspath : string -> string.
Variable snapshot_download : DownloadRequest -> result string.
Variable urlparse : string -> result ParseResult.

Local Abbreviation download :=
  (download_hf_directory expanduser abspath snapshot_download).
Local Abbreviation run_main :=
  (main expanduser abspath snapshot_download urlparse).
Local Abbreviation dest := (destination expanduser abspath).
Local Abbreviation request := (request_of expanduser abspath).
Local Abbreviation first_line :=
  (downloading_line expanduser abspath).

(** [download_hf_directory], run: one line, one request, then the
    outcome of the transfer; an [Exception] is logged, and every
    exception goes on to the caller. *)
Lemma download_hf_directory_run repo_id directory ld od token mw :
  download repo_id directory ld od token mw
  = let req := request repo_id directory ld od token mw in
    let line := first_line repo_id directory ld od in
    match snapshot_download req with
    | Ok p =>
        (Ok p, [Print line; SnapshotDownload req;
                Print ("Download completed! Files saved to: " ++ p)])
    | Raise e =>
        (Raise e,
         Print line :: SnapshotDownload req ::
         if isinstance_Exception e
         then [Print ("Error downloading files: " ++ str e)] else [])
    end.
Proof.
  unfold download_hf_directory, request_of, downloading_line,
    call_snapshot_download, try_except, bind, print, ret, raise.
  cbn zeta. cbn [app].
  destruct (snapshot_download _) as [p | e]; [reflexivity |].
  destruct (isinstance_Exception e); reflexivity.
Qed.

Lemma download_hf_directory_requests repo_id directory ld od token mw :
  requests (events (download repo_id directory ld od token mw))
  = [request repo_id directory ld od token mw].
Proof.
  rewrite download_hf_directory_run. cbn zeta.
  destruct (snapshot_download _) as [p | e]; [reflexivity |].
  destruct (isinstance_Exception e); reflexivity.
Qed.

(** Whatever the transfer raises, [download_hf_directory] raises. *)
Lemma download_hf_directory_reraises repo_id directory ld od token mw e :
  snapshot_download (request repo_id directory ld od token mw) = Raise e ->
  outcome (download repo_id directory ld od token mw) = Raise e.
Proof.
  intros H. rewrite download_hf_directory_run. cbn zeta. now rewrite H.
Qed.

(** ... and logs it first when it is an [Exception]. *)
Lemma download_hf_directory_logs repo_id directory ld od token mw e :
  snapshot_download (request repo_id directory ld od token mw) = Raise e ->
  isinstance_Exception e = true ->
  last (events (download repo_id directory ld od token mw)) PrintHelp
  = Print ("Error downloading files: " ++ str e).
Proof.
  intros H He. rewrite download_hf_directory_run. cbn zeta.
  now rewrite H, He.
Qed.

(** [main], run, by the result of the parser. *)
Lemma main_invalid_url args e :
  parse_hf_url urlparse (arg_url args) = Raise e ->
  isinstance_ValueError e = true ->
  run_main args = (Ok tt, [Print ("Error: " ++ str e); PrintHelp]).
Proof.
  intros H He. unfold main, try_except, bind, lift.
  rewrite H, He. reflexivity.
Qed.

Lemma main_missing_directory args repo_id :
  parse_hf_url urlparse (arg_url args) = Ok (repo_id, "") ->
  run_main args
  = (Ok tt,
     [Print "Error: Please specify a directory in the URL";
      Print "Example: https://huggingface.co/username/repo-name/tree/main/models"]).
Proof.
  intros H. unfold main, try_except, bind, lift.
  rewrite H. reflexivity.
Qed.

Lemma main_downloads args repo_id directory :
  parse_hf_url urlparse (arg_url args) = Ok (repo_id, directory) ->
  directory <> "" ->
  run_main args
  = let heading :=
      [Print ("Repository: " ++ repo_id);
       Print ("Directory: " ++ directory)] in
    match download repo_id directory (arg_local_dir args)
            (arg_output_dir args) (arg_token args) (arg_max_workers args)
    with
    | (Ok _, t) => (Ok tt, heading ++ t)%list
    | (Raise e, t) =>
        if isinstance_ValueError e
        then (Ok tt,
              heading ++ t ++ [Print ("Error: " ++ str e); PrintHelp])%list
        else (Raise e, heading ++ t)%list
    end.
Proof.
  intros H Hd. unfold main, lift.
  rewrite H.
  assert (He : PyStr.is_empty directory = false).
  { destruct directory; [congruence | reflexivity]. }
  unfold bind at 1. cbn iota. rewrite He.
  destruct (download _ _ _ _ _ _) as [[p | e] t];
    unfold try_except, bind, print, print_help, ret; cbn.
  - now rewrite app_nil_r.
  - destruct (isinstance_ValueError e); reflexivity.
Qed.

End ProgramFacts.

(** * Missing directory, destination, patterns *)

Section EntryPoint.

Variable expanduser : string -> string.
Variable abspath : string -> string.
Variable snapshot_download : DownloadRequest -> result string.
Variable urlparse : string -> result ParseResult.

Local Abbreviation download :=
  (download_hf_directory expanduser abspath snapshot_download).
Local Abbreviation run_main :=
  (main expanduser abspath snapshot_download urlparse).

(** The parser returns an empty directory only for a path of exactly two
    segments, and for each such path. *)
Lemma parse_hf_url_empty_directory url repo_id :
  parse_hf_url urlparse url = Ok (repo_id, "") ->
  exists parsed,
    urlparse url = Ok parsed
    /\ netloc parsed = "huggingface.co"
    /\ length (path_parts parsed) = 2.
Proof.
  unfold parse_hf_url. destruct (urlparse url) as [parsed | e];
    [| discriminate].
  destruct (netloc parsed =? "huggingface.co") eqn:Hn; [| discriminate].
  destruct (length (path_parts parsed) <? 2)%nat eqn:H2; [discriminate |].
  apply Nat.ltb_ge in H2. apply String.eqb_eq in Hn.
  intros H. exists parsed. split; [reflexivity |]. split; [exact Hn |].
  destruct (Nat.eq_dec (length (path_parts parsed)) 2) as [E | E];
    [exact E | exfalso].
  assert (Hgt : (2 <? length (path_parts parsed))%nat = true)
    by (apply Nat.ltb_lt; lia).
  rewrite Hgt in H.
  destruct ((4 <? length (path_parts parsed))%nat
            && (nth 2 (path_parts parsed) "" =? "tree")) eqn:H4.
  - apply andb_true_iff in H4. destruct H4 as [H4 _].
    apply Nat.ltb_lt in H4.
    injection H as _ Hd.
    exact (path_parts_join_skipn parsed 4 H2 H4 Hd).
  - injection H as _ Hd.
    apply (path_parts_join_skipn parsed 2 H2); [lia | exact Hd].
Qed.

Lemma parse_hf_url_two_segments url parsed :
  urlparse url = Ok parsed ->
  netloc parsed = "huggingface.co" ->
  length (path_parts parsed) = 2 ->
  exists repo_id, parse_hf_url urlparse url = Ok (repo_id, "").
Proof.
  intros Hp Hn Hl. unfold parse_hf_url.
  rewrite Hp, Hn, String.eqb_refl, Hl. simpl. eexists. reflexivity.
Qed.

(** C4: when the parser accepts the URL and returns an empty directory,
    which happens exactly for a path of two segments, [main] prints an
    error and an example and returns: its trace holds these two lines only,
    so neither [download_hf_directory] nor the transfer was called. *)
Theorem main_aborts_on_empty_directory args repo_id :
  parse_hf_url urlparse (arg_url args) = Ok (repo_id, "") ->
  run_main args
  = (Ok tt,
     [Print "Error: Please specify a directory in the URL";
      Print "Example: https://huggingface.co/username/repo-name/tree/main/models"])
  /\ no_network (events (run_main args)) = true
  /\ requests (events (run_main args)) = []
  /\ exists parsed,
       urlparse (arg_url args) = Ok parsed
       /\ length (path_parts parsed) = 2.
Proof.
  intros H. rewrite (main_missing_directory _ _ _ _ _ _ H).
  repeat split.
  destruct (parse_hf_url_empty_directory _ _ H) as [parsed [Hp [_ Hl]]].
  exists parsed. split; assumption.
Qed.

(** C6: the request [download_hf_directory] makes carries exactly two
    inclusion patterns, d/* and d/**/*, for the directory d stripped of
    leading and trailing slashes. *)
Theorem allow_patterns_two_members repo_id directory ld od token mw :
  let d := PyStr.strip PyStr.slash directory in
  exists req,
    requests (events (download repo_id directory ld od token mw)) = [req]
    /\ length (req_allow_patterns req) = 2
    /\ NoDup (req_allow_patterns req)
    /\ forall pat,
         In pat (req_allow_patterns req)
         <-> pat = d ++ "/*" \/ pat = d ++ "/**/*".
Proof.
  intros d. eexists. split; [apply download_hf_directory_requests |].
  simpl. fold d. split; [reflexivity |]. split.
  - constructor.
    + intros [H | []]. apply append_inj_l in H. discriminate.
    + constructor; [intros [] | constructor].
  - intros pat. split.
    + intros [H | [H | []]]; subst; tauto.
    + intros [H | H]; subst; tauto.
Qed.

(** C8, as the code has it: on a URL the parser rejects with a
    [ValueError], [main] prints "Error: " with the message and then the
    help text; on a URL without directory it prints an error and an
    example URL and no help text.  In both cases it returns normally and
    no transfer is attempted. *)
Theorem main_rejects_without_network args :
  (exists e, parse_hf_url urlparse (arg_url args) = Raise e
             /\ isinstance_ValueError e = true)
  \/ (exists repo_id, parse_hf_url urlparse (arg_url args) = Ok (repo_id, "")) ->
  outcome (run_main args) = Ok tt
  /\ no_network (events (run_main args)) = true
  /\ (forall e, parse_hf_url urlparse (arg_url args) = Raise e ->
        events (run_main args) = [Print ("Error: " ++ str e); PrintHelp])
  /\ (forall repo_id,
        parse_hf_url urlparse (arg_url args) = Ok (repo_id, "") ->
        events (run_main args)
        = [Print "Error: Please specify a directory in the URL";
           Print "Example: https://huggingface.co/username/repo-name/tree/main/models"]).
Proof.
  intros [[e [He Hv]] | [repo_id Hr]].
  - rewrite (main_invalid_url _ _ _ _ _ _ He Hv). repeat split.
    + intros e' He'. rewrite He in He'. injection He' as <-. reflexivity.
    + intros r Hr. rewrite He in Hr. discriminate.
  - rewrite (main_missing_directory _ _ _ _ _ _ Hr). repeat split.
    intros e He. rewrite Hr in He. discriminate.
Qed.

(** A transfer failure that is not a [ValueError] leaves [main] as it was
    raised. *)
Lemma main_propagates args repo_id directory e :
  parse_hf_url urlparse (arg_url args) = Ok (repo_id, directory) ->
  directory <> "" ->
  snapshot_download
    (request_of expanduser abspath repo_id directory (arg_local_dir args)
       (arg_output_dir args) (arg_token args) (arg_max_workers args))
  = Raise e ->
  isinstance_ValueError e = false ->
  outcome (run_main args) = Raise e.
Proof.
  intros Hp Hd Hs He. rewrite (main_downloads _ _ _ _ _ _ _ Hp Hd).
  rewrite download_hf_directory_run. cbn zeta. rewrite Hs, He. reflexivity.
Qed.

(** A transfer failure that is a [ValueError] is caught by the handler
    [main] has for the parser's errors. *)
Lemma main_catches_transfer_ValueError args repo_id directory e :
  parse_hf_url urlparse (arg_url args) = Ok (repo_id, directory) ->
  directory <> "" ->
  snapshot_download
    (request_of expanduser abspath repo_id directory (arg_local_dir args)
       (arg_output_dir args) (arg_token args) (arg_max_workers args))
  = Raise e ->
  isinstance_ValueError e = true ->
  outcome (run_main args) = Ok tt
  /\ last (events (run_main args)) (Print "") = PrintHelp.
Proof.
  intros Hp Hd Hs He. rewrite (main_downloads _ _ _ _ _ _ _ Hp Hd).
  rewrite download_hf_directory_run. cbn zeta. rewrite Hs, He.
  split; [reflexivity |].
  destruct (isinstance_Exception e); reflexivity.
Qed.

End EntryPoint.

(** * The destination *)

(** C5: with [local_dir] and [output_dir] both [None], the destination
    handed to the transfer is the repository with every "/" replaced by "_",
    then "_", then the directory with every "/" replaced by "_"; it is the
    same in every environment and for every token and worker count; for
    "acme/widgets" and "vae/blocks" it is "acme_widgets_vae_blocks". *)
Theorem default_destination_derived repo_id directory :
  let name :=
    PyStr.replace "/" "_" repo_id ++ "_" ++ PyStr.replace "/" "_" directory in
  (forall expanduser abspath snapshot_download token mw,
     map req_local_dir
       (requests (events (download_hf_directory expanduser abspath
                            snapshot_download repo_id directory None None
                            token mw)))
     = [name])
  /\ (forall expanduser abspath snapshot_download token mw
             expanduser' abspath' snapshot_download' token' mw',
        map req_local_dir
          (requests (events (download_hf_directory expanduser abspath
                               snapshot_download repo_id directory None None
                               token mw)))
        = map req_local_dir
            (requests (events (download_hf_directory expanduser' abspath'
                                 snapshot_download' repo_id directory None
                                 None token' mw'))))
  /\ (forall expanduser abspath output_dir,
        destination expanduser abspath repo_id directory None output_dir
        = match output_dir with
          | None => name
          | Some o => OsPath.join (abspath (expanduser o)) name
          end)
  /\ default_local_dir "acme/widgets" "vae/blocks" = "acme_widgets_vae_blocks".
Proof.
  intros name. split; [| split; [| split]].
  - intros. rewrite download_hf_directory_requests. reflexivity.
  - intros. rewrite !download_hf_directory_requests. reflexivity.
  - intros. destruct output_dir; reflexivity.
  - reflexivity.
Qed.

(** X17: with [output_dir] supplied and a name that is derived, or is
    supplied as a relative name without ".." that has a component besides
    "" and ".", the destination is [os.path.join] of
    [abspath(expanduser(output_dir))] and the name, and the resolved base
    is a strict ancestor of it. *)
Theorem destination_under_output_dir expanduser abspath snapshot_download
    repo_id directory local_dir output_dir token mw :
  match local_dir with
  | None => True
  | Some l => OsPath.plain_relative l = true
  end ->
  let base := abspath (expanduser output_dir) in
  let dest := OsPath.join base (local_dir_name repo_id directory local_dir) in
  map req_local_dir
    (requests (events (download_hf_directory expanduser abspath
                         snapshot_download repo_id directory local_dir
                         (Some output_dir) token mw)))
  = [dest]
  /\ OsPath.is_strict_ancestor base dest = true.
Proof.
  intros Hname base dest. split.
  - rewrite download_hf_directory_requests. unfold dest, local_dir_name.
    destruct local_dir; reflexivity.
  - unfold dest, local_dir_name. apply join_plain_relative.
    destruct local_dir as [l |]; [exact Hname |].
    apply default_local_dir_plain.
Qed.

(** * The program on concrete input *)

Example urlparse_example :
  UrlLib.urlparse "HTTPS://huggingface.co/acme/widgets/tree/main/vae;p?x=1#top"
  = Ok (mkParseResult "https" "huggingface.co" "/acme/widgets/tree/main/vae"
          "p" "x=1" "top").
Proof. reflexivity. Qed.

Example parse_hf_url_end_to_end :
  parse_hf_url UrlLib.urlparse
    "https://huggingface.co/acme/widgets/tree/main/vae/blocks"
  = Ok ("acme/widgets", "vae/blocks").
Proof. reflexivity. Qed.

Example run_end_to_end :
  run transfer_ok
    (mkArgs "https://huggingface.co/acme/widgets/tree/main/vae/blocks"
       None (Some "~/data") None 2)
  = (Ok tt,
     [Print "Repository: acme/widgets";
      Print "Directory: vae/blocks";
      Print "Downloading from acme/widgets/vae/blocks/ to /home/u/data/acme_widgets_vae_blocks";
      SnapshotDownload
        (mkRequest "acme/widgets" ["vae/blocks/**/*"; "vae/blocks/*"]
           "/home/u/data/acme_widgets_vae_blocks" None 2);
      Print "Download completed! Files saved to: /home/u/data/acme_widgets_vae_blocks"]).
Proof. reflexivity. Qed.

(** C9: a [ValueError] raised by the transfer is logged and re-raised by
    [download_hf_directory], and then caught in [main] by the handler meant
    for the parser's errors: [main] prints the message again and the help
    text, and returns normally. *)
Theorem main_swallows_transfer_ValueError :
  run transfer_invalid_repo
    (mkArgs "https://huggingface.co/acme/wid--gets/tree/main/vae"
       None None None 2)
  = (Ok tt,
     [Print "Repository: acme/wid--gets";
      Print "Directory: vae";
      Print "Downloading from acme/wid--gets/vae/ to acme_wid--gets_vae";
      SnapshotDownload
        (mkRequest "acme/wid--gets" ["vae/**/*"; "vae/*"]
           "acme_wid--gets_vae" None 2);
      Print "Error downloading files: Cannot have -- or .. in repo_id: 'acme/wid--gets'.";
      Print "Error: Cannot have -- or .. in repo_id: 'acme/wid--gets'.";
      PrintHelp]).
Proof. reflexivity. Qed.

(** C7: with [--local-dir /tmp/x --output-dir ~/data] the one request of
    the run has the destination /tmp/x: [os.path.join] drops the resolved
    base /home/u/data, which is no ancestor of the destination, although
    the code means to create [local_dir] inside [output_dir]. *)
Theorem absolute_local_dir_escapes_output_dir :
  requests
    (events
       (run transfer_ok
          (mkArgs "https://huggingface.co/acme/widgets/tree/main/vae"
             (Some "/tmp/x") (Some "~/data") None 2)))
  = [mkRequest "acme/widgets" ["vae/**/*"; "vae/*"] "/tmp/x" None 2]
  /\ OsPath.abspath posix_env (OsPath.expanduser posix_env "~/data")
     = "/home/u/data"
  /\ OsPath.is_strict_ancestor "/home/u/data" "/tmp/x" = false.
Proof.
  split; [reflexivity |].
  split; reflexivity.
Qed.

(** C8 as stated fails: for a URL without directory no help text is
    printed. *)
Lemma missing_directory_prints_no_help :
  ~ (forall expanduser abspath snapshot_download urlparse args,
       (exists e, parse_hf_url urlparse (arg_url args) = Raise e
                  /\ isinstance_ValueError e = true)
       \/ (exists repo_id,
             parse_hf_url urlparse (arg_url args) = Ok (repo_id, "")) ->
       (exists line,
          In (Print line)
            (events (main expanduser abspath snapshot_download urlparse args)))
       /\ In PrintHelp
            (events (main expanduser abspath snapshot_download urlparse args))
       /\ no_network
            (events (main expanduser abspath snapshot_download urlparse args))
          = true).
Proof.
  intros H.
  specialize (H (OsPath.expanduser posix_env) (OsPath.abspath posix_env)
                transfer_ok UrlLib.urlparse
                (mkArgs "https://huggingface.co/acme/widgets" None None None 2)).
  destruct H as [_ [Hhelp _]].
  - right. exists "acme/widgets". reflexivity.
  - simpl in Hhelp. destruct Hhelp as [Hh | [Hh | []]]; discriminate.
Qed.

(** The base is not an ancestor of every destination: an absolute
    [local_dir] replaces it. *)
Lemma absolute_local_dir_leaves_output_dir :
  ~ (forall expanduser abspath repo_id directory local_dir output_dir,
       OsPath.is_strict_ancestor (abspath (expanduser output_dir))
         (destination expanduser abspath repo_id directory local_dir
            (Some output_dir))
       = true).
Proof.
  intros H.
  specialize (H (OsPath.expanduser posix_env) (OsPath.abspath posix_env)
                "acme/widgets" "vae" (Some "/tmp/x") "~/data").
  vm_compute in H. discriminate.
Qed.

(** ** Instances of the theorems that have hypotheses *)

Lemma parse_hf_url_tree_branch_witness :
  parse_hf_url UrlLib.urlparse
    "https://huggingface.co/acme/widgets/tree/main/vae/blocks"
  = Ok ("acme/widgets", "vae/blocks").
Proof.
  apply (parse_hf_url_tree_branch UrlLib.urlparse
           "https://huggingface.co/acme/widgets/tree/main/vae/blocks"
           (mkParseResult "https" "huggingface.co"
              "/acme/widgets/tree/main/vae/blocks" "" "" ""));
    [reflexivity | reflexivity | vm_compute; lia | reflexivity].
Defined.

Lemma parse_hf_url_four_segments_witness :
  parse_hf_url UrlLib.urlparse "https://huggingface.co/acme/widgets/tree/main"
  = Ok ("acme/widgets", "tree/main").
Proof.
  apply (parse_hf_url_four_segments UrlLib.urlparse
           "https://huggingface.co/acme/widgets/tree/main"
           (mkParseResult "https" "huggingface.co"
              "/acme/widgets/tree/main" "" "" "")
           "acme" "widgets" "main");
    reflexivity.
Defined.

Lemma parse_hf_url_raises_iff_witness :
  ((exists e,
      parse_hf_url UrlLib.urlparse "https://huggingface.co/acme" = Raise e
      /\ isinstance_ValueError e = true)
   <-> "huggingface.co" <> "huggingface.co"
       \/ ("huggingface.co" = "huggingface.co" /\ 1 < 2))
  /\ ((exists repo_id directory,
         parse_hf_url UrlLib.urlparse "https://huggingface.co/acme"
         = Ok (repo_id, directory))
      <-> ~ ("huggingface.co" <> "huggingface.co"
             \/ ("huggingface.co" = "huggingface.co" /\ 1 < 2))).
Proof.
  apply (parse_hf_url_raises_iff UrlLib.urlparse "https://huggingface.co/acme"
           (mkParseResult "https" "huggingface.co" "/acme" "" "" "")).
  reflexivity.
Defined.

Lemma parse_hf_url_host_path_only_witness :
  (exists rd,
     parse_hf_url UrlLib.urlparse "https://huggingface.co/acme/widgets/vae"
     = Ok rd
     /\ parse_hf_url UrlLib.urlparse
          "http://huggingface.co/acme/widgets/vae?download=true#files"
        = Ok rd)
  \/ (exists e1 e2,
        parse_hf_url UrlLib.urlparse "https://huggingface.co/acme/widgets/vae"
        = Raise e1
        /\ parse_hf_url UrlLib.urlparse
             "http://huggingface.co/acme/widgets/vae?download=true#files"
           = Raise e2).
Proof.
  apply (parse_hf_url_host_path_only UrlLib.urlparse
           "https://huggingface.co/acme/widgets/vae"
           "http://huggingface.co/acme/widgets/vae?download=true#files"
           (mkParseResult "https" "huggingface.co" "/acme/widgets/vae"
              "" "" "")
           (mkParseResult "http" "huggingface.co" "/acme/widgets/vae"
              "" "download=true" "files"));
    reflexivity.
Defined.

Lemma main_aborts_on_empty_directory_witness :
  run transfer_ok
    (mkArgs "https://huggingface.co/acme/widgets" None None None 2)
  = (Ok tt,
     [Print "Error: Please specify a directory in the URL";
      Print "Example: https://huggingface.co/username/repo-name/tree/main/models"]).
Proof.
  apply (main_aborts_on_empty_directory (OsPath.expanduser posix_env)
           (OsPath.abspath posix_env) transfer_ok UrlLib.urlparse
           (mkArgs "https://huggingface.co/acme/widgets" None None None 2)
           "acme/widgets").
  reflexivity.
Defined.

Lemma main_rejects_without_network_witness :
  outcome (run transfer_ok
             (mkArgs "https://example.org/acme/widgets/tree/main/vae"
                None None None 2))
  = Ok tt.
Proof.
  apply (main_rejects_without_network (OsPath.expanduser posix_env)
           (OsPath.abspath posix_env) transfer_ok UrlLib.urlparse
           (mkArgs "https://example.org/acme/widgets/tree/main/vae"
              None None None 2)).
  left. exists (Exn ValueError "URL must be from huggingface.co").
  split; reflexivity.
Defined.

Lemma destination_under_output_dir_witness :
  map req_local_dir
    (requests
       (events
          (download_hf_directory (OsPath.expanduser posix_env)
             (OsPath.abspath posix_env) transfer_ok "acme/widgets"
             "vae/blocks" (Some "models/vae") (Some "~/data") None 2)))
  = ["/home/u/data/models/vae"]
  /\ OsPath.is_strict_ancestor "/home/u/data" "/home/u/data/models/vae"
     = true.
Proof.
  apply (destination_under_output_dir (OsPath.expanduser posix_env)
           (OsPath.abspath posix_env) transfer_ok
           "acme/widgets" "vae/blocks" (Some "models/vae") "~/data" None 2).
  reflexivity.
Defined.

(** * Further facts about the string methods *)

Section MoreStrFacts.

Variable c : ascii.

(** No field of a split contains the separator. *)
Lemma split_fields_no_sep s :
  Forall (fun x => PyStr.contains c x = false) (PyStr.split c s).
Proof.
  induction s as [| a s IH]; simpl.
  - constructor; [reflexivity | constructor].
  - destruct (Ascii.eqb a c) eqn:Ha.
    + constructor; [reflexivity | exact IH].
    + destruct (PyStr.split c s) as [| h t].
      * constructor; [simpl; now rewrite Ha | constructor].
      * inversion IH as [| ? ? Hh Ht]; subst.
        constructor; [simpl; now rewrite Ha, Hh | exact Ht].
Qed.

Lemma join_cons sep x y l :
  PyStr.join sep (x :: y :: l) = x ++ sep ++ PyStr.join sep (y :: l).
Proof. reflexivity. Qed.

(** Joining the fields of a split gives the string back. *)
Lemma join_split s : PyStr.join (String c "") (PyStr.split c s) = s.
Proof.
  induction s as [| a s IH]; [reflexivity |].
  simpl PyStr.split. pose proof (split_not_nil c s) as Hne.
  destruct (PyStr.split c s) as [| h t] eqn:Hs; [congruence |].
  destruct (Ascii.eqb a c) eqn:Ha.
  - apply Ascii.eqb_eq in Ha. subst a. rewrite join_cons, IH. reflexivity.
  - destruct t as [| y t].
    + simpl in IH |- *. now rewrite IH.
    + rewrite join_cons in IH |- *. rewrite <- IH. reflexivity.
Qed.

(** The first field is empty only for the empty string and for a string
    that starts with the separator. *)
Lemma split_head_empty s t :
  PyStr.split c s = "" :: t -> s = "" \/ PyStr.startswith c s = true.
Proof.
  destruct s as [| a s]; [now left |]. simpl.
  destruct (Ascii.eqb a c); [now right |].
  destruct (PyStr.split c s); discriminate.
Qed.

Lemma lstrip_startswith s : PyStr.startswith c (PyStr.lstrip c s) = false.
Proof.
  induction s as [| a s IH]; [reflexivity |]. simpl.
  destruct (Ascii.eqb a c) eqn:Ha; [exact IH | simpl; exact Ha].
Qed.

Lemma lstrip_fixed s :
  PyStr.startswith c s = false -> PyStr.lstrip c s = s.
Proof. destruct s as [| a s]; simpl; [reflexivity |]. now intros ->. Qed.

Lemma rstrip_startswith s :
  PyStr.startswith c s = false ->
  PyStr.startswith c (PyStr.rstrip c s) = false.
Proof.
  destruct s as [| a s]; [reflexivity |]. simpl. intros Ha.
  rewrite Ha, andb_false_r. simpl. exact Ha.
Qed.

Lemma rstrip_idem s : PyStr.rstrip c (PyStr.rstrip c s) = PyStr.rstrip c s.
Proof.
  induction s as [| a s IH]; [reflexivity |]. simpl.
  destruct (PyStr.is_empty (PyStr.rstrip c s) && Ascii.eqb a c) eqn:E;
    [reflexivity |].
  simpl. rewrite IH, E. reflexivity.
Qed.

(** [strip] is idempotent. *)
Lemma strip_idem s : PyStr.strip c (PyStr.strip c s) = PyStr.strip c s.
Proof.
  unfold PyStr.strip.
  rewrite (lstrip_fixed (PyStr.rstrip c (PyStr.lstrip c s))).
  - apply rstrip_idem.
  - apply rstrip_startswith, lstrip_startswith.
Qed.

Lemma rstrip_app_sep s :
  PyStr.rstrip c (s ++ String c "") = PyStr.rstrip c s.
Proof.
  induction s as [| a s IH]; simpl.
  - now rewrite Ascii.eqb_refl.
  - now rewrite IH.
Qed.

(** A slash more at either end changes nothing. *)
Lemma strip_outer s :
  PyStr.strip c (String c (s ++ String c "")) = PyStr.strip c s.
Proof.
  unfold PyStr.strip. simpl. rewrite Ascii.eqb_refl.
  induction s as [| a s IH]; simpl.
  - now rewrite Ascii.eqb_refl.
  - destruct (Ascii.eqb a c); [exact IH |].
    change (String a (s ++ String c "")) with (String a s ++ String c "").
    apply rstrip_app_sep.
Qed.

Lemma endswith_no_sep s :
  PyStr.contains c s = false -> PyStr.endswith c s = false.
Proof.
  induction s as [| a s IH]; [reflexivity |]. simpl. intros H.
  apply orb_false_iff in H. destruct H as [Ha Hs].
  destruct s; [exact Ha | exact (IH Hs)].
Qed.

Lemma endswith_app a b :
  b <> "" -> PyStr.endswith c (a ++ b) = PyStr.endswith c b.
Proof.
  intros Hb. induction a as [| x a IH]; [reflexivity |].
  simpl. destruct (a ++ b) eqn:E; [| exact IH].
  destruct a; simpl in E; [congruence | discriminate].
Qed.

(** A join ends as its last field does, when that field is not empty. *)
Lemma endswith_join l :
  last l "" <> "" ->
  PyStr.endswith c (PyStr.join (String c "") l)
  = PyStr.endswith c (last l "").
Proof.
  induction l as [| x [| y t] IH]; intros Hl; [reflexivity | reflexivity |].
  rewrite join_cons.
  assert (Hj : PyStr.join (String c "") (y :: t) <> "").
  { intros Hj. apply join_empty in Hj. destruct Hj as [Hj | Hj];
      [discriminate |].
    apply Hl. rewrite Hj. reflexivity. }
  rewrite endswith_app by (simpl; discriminate).
  change (String c "" ++ PyStr.join (String c "") (y :: t))
    with (String c (PyStr.join (String c "") (y :: t))).
  specialize (IH Hl).
  destruct (PyStr.join (String c "") (y :: t)) eqn:E; [congruence |].
  exact IH.
Qed.

End MoreStrFacts.

Lemma last_In {A} (l : list A) d : l <> [] -> In (last l d) l.
Proof.
  induction l as [| x [| y t] IH]; intros H; [congruence | now left |].
  right. apply IH. discriminate.
Qed.

(** * Further properties of the URL parser *)

Section ParserShape.

Variable urlparse : string -> result ParseResult.

Local Abbreviation parse := (parse_hf_url urlparse).

(** What an accepted URL looks like. *)
Lemma parse_hf_url_inv url parsed repo_id directory :
  urlparse url = Ok parsed ->
  parse url = Ok (repo_id, directory) ->
  netloc parsed = "huggingface.co"
  /\ 2 <= length (path_parts parsed)
  /\ repo_id = nth 0 (path_parts parsed) "" ++ "/" ++ nth 1 (path_parts parsed) ""
  /\ ((4 < length (path_parts parsed)
       /\ nth 2 (path_parts parsed) "" = "tree"
       /\ directory = PyStr.join "/" (skipn 4 (path_parts parsed)))
      \/ (~ (4 < length (path_parts parsed)
             /\ nth 2 (path_parts parsed) "" = "tree")
          /\ 2 < length (path_parts parsed)
          /\ directory = PyStr.join "/" (skipn 2 (path_parts parsed)))
      \/ (length (path_parts parsed) = 2 /\ directory = "")).
Proof.
  intros Hp. unfold parse_hf_url. rewrite Hp.
  destruct (netloc parsed =? "huggingface.co") eqn:Hn; [| discriminate].
  apply String.eqb_eq in Hn.
  destruct (length (path_parts parsed) <? 2)%nat eqn:H2; [discriminate |].
  apply Nat.ltb_ge in H2.
  intros H. injection H as Hr Hd.
  split; [exact Hn |]. split; [exact H2 |]. split; [now symmetry |].
  destruct (4 <? length (path_parts parsed))%nat eqn:H4;
    [apply Nat.ltb_lt in H4 | apply Nat.ltb_ge in H4];
    (destruct (nth 2 (path_parts parsed) "" =? "tree") eqn:Ht;
     [apply String.eqb_eq in Ht | apply String.eqb_neq in Ht]);
    simpl in Hd.
  - left. now repeat split.
  - right. left.
    assert (H2' : (2 <? length (path_parts parsed))%nat = true)
      by (apply Nat.ltb_lt; lia).
    rewrite H2' in Hd. split; [tauto |]. split; [lia | now symmetry].
  - destruct (2 <? length (path_parts parsed))%nat eqn:H2';
      [apply Nat.ltb_lt in H2' | apply Nat.ltb_ge in H2'].
    + right. left. split; [lia |]. split; [lia | now symmetry].
    + right. right. split; [lia | now symmetry].
  - destruct (2 <? length (path_parts parsed))%nat eqn:H2';
      [apply Nat.ltb_lt in H2' | apply Nat.ltb_ge in H2'].
    + right. left. split; [lia |]. split; [lia | now symmetry].
    + right. right. split; [lia | now symmetry].
Qed.

(** The segments of a path with at least two of them: none holds a slash,
    the first and the last are not empty. *)
Lemma path_parts_shape parsed :
  2 <= length (path_parts parsed) ->
  Forall (fun x => PyStr.contains PyStr.slash x = false) (path_parts parsed)
  /\ nth 0 (path_parts parsed) "" <> ""
  /\ last (path_parts parsed) "" <> "".
Proof.
  intros H2. split; [apply split_fields_no_sep |].
  unfold path_parts, PyStr.strip in *.
  set (s := PyStr.lstrip PyStr.slash (path parsed)) in *.
  assert (Hne : PyStr.rstrip PyStr.slash s <> "").
  { intros He. rewrite He in H2. simpl in H2. lia. }
  split; [| exact (rstrip_last _ _ Hne)].
  destruct (PyStr.split PyStr.slash (PyStr.rstrip PyStr.slash s))
    as [| h t] eqn:Hs; [simpl in H2; lia |].
  simpl. intros Hh. subst h.
  destruct (split_head_empty _ _ _ Hs) as [He | He]; [contradiction |].
  unfold s in He.
  rewrite rstrip_startswith in He by apply lstrip_startswith.
  discriminate.
Qed.

(** X1: for an accepted URL the directory is empty exactly when the path
    has two segments. *)
Theorem parse_hf_url_directory_empty_iff url parsed repo_id directory :
  urlparse url = Ok parsed ->
  parse url = Ok (repo_id, directory) ->
  (directory = "" <-> length (path_parts parsed) = 2).
Proof.
  intros Hp H.
  destruct (parse_hf_url_inv _ _ _ _ Hp H) as [_ [H2 [_ Hd]]].
  destruct Hd as [[H4 [_ Hd]] | [[_ [H3 Hd]] | [Hl Hd]]].
  - split; [| lia]. intros E. exfalso. rewrite E in Hd.
    exact (path_parts_join_skipn parsed 4 H2 H4 (eq_sym Hd)).
  - split; [| lia]. intros E. exfalso. rewrite E in Hd.
    exact (path_parts_join_skipn parsed 2 H2 H3 (eq_sym Hd)).
  - tauto.
Qed.

(** X2: the directory returned never ends with a slash. *)
Theorem parse_hf_url_directory_no_trailing_slash url repo_id directory :
  parse url = Ok (repo_id, directory) ->
  PyStr.endswith PyStr.slash directory = false.
Proof.
  intros H.
  destruct (urlparse url) as [parsed | e] eqn:Hp;
    [| unfold parse_hf_url in H; rewrite Hp in H; discriminate].
  destruct (parse_hf_url_inv _ _ _ _ Hp H) as [_ [H2 [_ Hd]]].
  destruct (path_parts_shape parsed H2) as [Hall [_ Hlast]].
  assert (Hk : forall k, k < length (path_parts parsed) ->
            PyStr.endswith PyStr.slash
              (PyStr.join "/" (skipn k (path_parts parsed))) = false).
  { intros k Hk.
    change "/" with (String PyStr.slash "").
    rewrite endswith_join; rewrite (last_skipn _ k "" Hk); [| exact Hlast].
    apply endswith_no_sep.
    rewrite Forall_forall in Hall. apply Hall, last_In.
    intros E. rewrite E in H2. simpl in H2. lia. }
  destruct Hd as [[H4 [_ Hd]] | [[_ [H3 Hd]] | [_ Hd]]]; subst directory.
  - now apply Hk.
  - now apply Hk.
  - reflexivity.
Qed.

(** X3: the repository returned holds exactly one slash, between the
    first two segments of the path, and its first part is not empty. *)
Theorem parse_hf_url_repo_id_two_parts url parsed repo_id directory :
  urlparse url = Ok parsed ->
  parse url = Ok (repo_id, directory) ->
  PyStr.split PyStr.slash repo_id
  = [nth 0 (path_parts parsed) ""; nth 1 (path_parts parsed) ""]
  /\ nth 0 (path_parts parsed) "" <> "".
Proof.
  intros Hp H.
  destruct (parse_hf_url_inv _ _ _ _ Hp H) as [_ [H2 [Hr _]]].
  destruct (path_parts_shape parsed H2) as [Hall [Hfirst _]].
  split; [| exact Hfirst]. subst repo_id.
  destruct (path_parts parsed) as [| p0 [| p1 rest]];
    [simpl in H2; lia | simpl in H2; lia |].
  inversion Hall as [| ? ? H0 Hall']; subst.
  inversion Hall' as [| ? ? H1 _]; subst.
  simpl nth. change ("/" ++ p1) with (String PyStr.slash p1).
  rewrite split_app_sep, (split_no_sep _ _ H0), (split_no_sep _ _ H1).
  reflexivity.
Qed.

(** X4: when the path has more than two segments and is not branch-scoped,
    repository and directory put together are the stripped path. *)
Theorem parse_hf_url_plain_reassembles url parsed repo_id directory :
  urlparse url = Ok parsed ->
  parse url = Ok (repo_id, directory) ->
  2 < length (path_parts parsed) ->
  ~ (4 < length (path_parts parsed)
     /\ nth 2 (path_parts parsed) "" = "tree") ->
  repo_id ++ "/" ++ directory = PyStr.strip PyStr.slash (path parsed).
Proof.
  intros Hp H H3 Hnt.
  destruct (parse_hf_url_inv _ _ _ _ Hp H) as [_ [_ [Hr Hd]]].
  destruct Hd as [[H4 [Ht _]] | [[_ [_ Hd]] | [Hl _]]]; [tauto | | lia].
  rewrite <- (join_split PyStr.slash (PyStr.strip PyStr.slash (path parsed))).
  fold (path_parts parsed). subst.
  destruct (path_parts parsed) as [| p0 [| p1 [| p2 rest]]];
    try (simpl in H3; lia).
  change (String PyStr.slash "") with "/".
  rewrite !join_cons. simpl nth. simpl skipn.
  now rewrite !append_assoc.
Qed.

(** X5: for a branch-scoped URL, repository, "tree", the branch and the
    directory put together are the stripped path. *)
Theorem parse_hf_url_tree_reassembles url parsed repo_id directory :
  urlparse url = Ok parsed ->
  parse url = Ok (repo_id, directory) ->
  4 < length (path_parts parsed) ->
  nth 2 (path_parts parsed) "" = "tree" ->
  repo_id ++ "/tree/" ++ nth 3 (path_parts parsed) "" ++ "/" ++ directory
  = PyStr.strip PyStr.slash (path parsed).
Proof.
  intros Hp H H4 Ht.
  destruct (parse_hf_url_inv _ _ _ _ Hp H) as [_ [_ [Hr Hd]]].
  destruct Hd as [[_ [_ Hd]] | [[Hn _] | [Hl _]]]; [| tauto | lia].
  rewrite <- (join_split PyStr.slash (PyStr.strip PyStr.slash (path parsed))).
  fold (path_parts parsed). subst.
  destruct (path_parts parsed) as [| p0 [| p1 [| p2 [| p3 [| p4 rest]]]]];
    try (simpl in H4; lia).
  simpl in Ht. subst p2.
  change (String PyStr.slash "") with "/".
  rewrite !join_cons. simpl nth. simpl skipn.
  rewrite !append_assoc. reflexivity.
Qed.

Lemma parse_hf_url_netloc_parts u1 u2 p1 p2 :
  urlparse u1 = Ok p1 ->
  urlparse u2 = Ok p2 ->
  netloc p1 = netloc p2 ->
  path_parts p1 = path_parts p2 ->
  parse u1 = parse u2.
Proof.
  intros H1 H2 Hn Hparts. unfold parse_hf_url.
  rewrite H1, H2, Hn, Hparts. reflexivity.
Qed.

(** X6: a slash more at the start and at the end of the path has no
    effect on the result. *)
Theorem parse_hf_url_outer_slashes u1 u2 p1 p2 :
  urlparse u1 = Ok p1 ->
  urlparse u2 = Ok p2 ->
  netloc p1 = netloc p2 ->
  path p2 = "/" ++ path p1 ++ "/" ->
  parse u1 = parse u2.
Proof.
  intros H1 H2 Hn Hpath.
  apply (parse_hf_url_netloc_parts _ _ _ _ H1 H2 Hn).
  unfold path_parts. rewrite Hpath.
  change ("/" ++ path p1 ++ "/")
    with (String PyStr.slash (path p1 ++ String PyStr.slash "")).
  now rewrite strip_outer.
Qed.

(** The branch of a branch-scoped URL does not reach the result. *)
Lemma parse_hf_url_branch_ignored u1 u2 p1 p2 ns repo b1 b2 d rest :
  urlparse u1 = Ok p1 ->
  urlparse u2 = Ok p2 ->
  netloc p1 = netloc p2 ->
  path_parts p1 = ns :: repo :: "tree" :: b1 :: d :: rest ->
  path_parts p2 = ns :: repo :: "tree" :: b2 :: d :: rest ->
  parse u1 = parse u2.
Proof.
  intros H1 H2 Hn Hp1 Hp2. unfold parse_hf_url.
  rewrite H1, H2, Hn, Hp1, Hp2. reflexivity.
Qed.

End ParserShape.

(** * Further properties of the fetcher and of [main] *)

Section Runs.

Variable expanduser : string -> string.
Variable abspath : string -> string.
Variable snapshot_download : DownloadRequest -> result string.
Variable urlparse : string -> result ParseResult.

Local Abbreviation download :=
  (download_hf_directory expanduser abspath snapshot_download).
Local Abbreviation run_main :=
  (main expanduser abspath snapshot_download urlparse).
Local Abbreviation request := (request_of expanduser abspath).
Local Abbreviation first_line := (downloading_line expanduser abspath).

(** The request [main] makes for the arguments [args] once the parser has
    returned [repo_id] and [directory]. *)
Local Abbreviation request_for args repo_id directory :=
  (request repo_id directory (arg_local_dir args) (arg_output_dir args)
     (arg_token args) (arg_max_workers args)).

(** X7: [download_hf_directory] ends as the transfer does: it returns the
    path the transfer returned, or raises what the transfer raised. *)
Theorem download_hf_directory_outcome repo_id directory ld od token mw :
  outcome (download repo_id directory ld od token mw)
  = snapshot_download (request repo_id directory ld od token mw).
Proof.
  rewrite download_hf_directory_run. cbn zeta.
  destruct (snapshot_download _); reflexivity.
Qed.

Lemma main_parse_raises_other args e :
  parse_hf_url urlparse (arg_url args) = Raise e ->
  isinstance_ValueError e = false ->
  run_main args = (Raise e, []).
Proof.
  intros H He. unfold main, try_except, bind, lift.
  rewrite H, He. reflexivity.
Qed.

(** The parser raises nothing but [ValueError]s of its own. *)
Lemma parse_hf_url_raises_own url e :
  parse_hf_url urlparse url = Raise e ->
  isinstance_ValueError e = false ->
  urlparse url = Raise e.
Proof.
  unfold parse_hf_url. destruct (urlparse url) as [parsed | e'].
  - destruct (netloc parsed =? "huggingface.co").
    + destruct (length (path_parts parsed) <? 2)%nat; [| discriminate].
      intros H. injection H as <-. discriminate.
    + intros H. injection H as <-. discriminate.
  - intros H _. injection H as <-. reflexivity.
Qed.

(** X8: a run of [main] makes one transfer request when the parser returns
    a directory that is not empty, and none otherwise. *)
Theorem main_requests args :
  requests (events (run_main args))
  = match parse_hf_url urlparse (arg_url args) with
    | Ok (repo_id, directory) =>
        if PyStr.is_empty directory then []
        else [request_for args repo_id directory]
    | Raise _ => []
    end.
Proof.
  destruct (parse_hf_url urlparse (arg_url args)) as [[repo_id directory] | e]
    eqn:Hp.
  - destruct directory as [| a d].
    + rewrite (main_missing_directory _ _ _ _ _ _ Hp). reflexivity.
    + rewrite (main_downloads _ _ _ _ _ _ _ Hp) by discriminate.
      rewrite download_hf_directory_run. cbn zeta.
      destruct (snapshot_download _) as [p | e]; [reflexivity |].
      destruct (isinstance_ValueError e), (isinstance_Exception e);
        reflexivity.
  - destruct (isinstance_ValueError e) eqn:He.
    + rewrite (main_invalid_url _ _ _ _ _ _ Hp He). reflexivity.
    + rewrite (main_parse_raises_other _ _ Hp He). reflexivity.
Qed.

(** X9: [main] never ends with a [ValueError]; what it raises was raised by
    [urlparse] or by the transfer. *)
Theorem main_raises_only_foreign args e :
  outcome (run_main args) = Raise e ->
  isinstance_ValueError e = false
  /\ (urlparse (arg_url args) = Raise e
      \/ exists req,
           requests (events (run_main args)) = [req]
           /\ snapshot_download req = Raise e).
Proof.
  intros H.
  destruct (parse_hf_url urlparse (arg_url args)) as [[repo_id directory] | e']
    eqn:Hp.
  - destruct directory as [| a d].
    + rewrite (main_missing_directory _ _ _ _ _ _ Hp) in H. discriminate.
    + pose proof (main_requests args) as Hreq. rewrite Hp in Hreq.
      cbn [PyStr.is_empty] in Hreq.
      rewrite (main_downloads _ _ _ _ _ _ _ Hp) in H by discriminate.
      rewrite download_hf_directory_run in H. cbn zeta in H.
      destruct (snapshot_download _) as [p | e''] eqn:Hs; [discriminate |].
      destruct (isinstance_ValueError e'') eqn:He; [discriminate |].
      injection H as <-. split; [exact He |].
      right. eexists. split; [exact Hreq | exact Hs].
  - destruct (isinstance_ValueError e') eqn:He.
    + rewrite (main_invalid_url _ _ _ _ _ _ Hp He) in H. discriminate.
    + rewrite (main_parse_raises_other _ _ Hp He) in H.
      injection H as <-. split; [exact He |].
      left. exact (parse_hf_url_raises_own _ _ Hp He).
Qed.

(** X10: when the transfer succeeds, [main] prints the repository and the
    directory, [download_hf_directory] prints its two lines around the one
    transfer, and [main] returns normally. *)
Theorem main_success args repo_id directory p :
  parse_hf_url urlparse (arg_url args) = Ok (repo_id, directory) ->
  directory <> "" ->
  snapshot_download (request_for args repo_id directory) = Ok p ->
  run_main args
  = (Ok tt,
     [Print ("Repository: " ++ repo_id);
      Print ("Directory: " ++ directory);
      Print (first_line repo_id directory (arg_local_dir args)
               (arg_output_dir args));
      SnapshotDownload (request_for args repo_id directory);
      Print ("Download completed! Files saved to: " ++ p)]).
Proof.
  intros Hp Hd Hs. rewrite (main_downloads _ _ _ _ _ _ _ Hp Hd).
  rewrite download_hf_directory_run. cbn zeta. rewrite Hs. reflexivity.
Qed.

(** X11: when the transfer raises an [Exception] that is no [ValueError],
    [main] raises it after the line "Error downloading files: ..." and
    prints neither "Error: ..." nor the help text. *)
Theorem main_transfer_failure args repo_id directory e :
  parse_hf_url urlparse (arg_url args) = Ok (repo_id, directory) ->
  directory <> "" ->
  snapshot_download (request_for args repo_id directory) = Raise e ->
  isinstance_Exception e = true ->
  isinstance_ValueError e = false ->
  run_main args
  = (Raise e,
     [Print ("Repository: " ++ repo_id);
      Print ("Directory: " ++ directory);
      Print (first_line repo_id directory (arg_local_dir args)
               (arg_output_dir args));
      SnapshotDownload (request_for args repo_id directory);
      Print ("Error downloading files: " ++ str e)]).
Proof.
  intros Hp Hd Hs HE HV. rewrite (main_downloads _ _ _ _ _ _ _ Hp Hd).
  rewrite download_hf_directory_run. cbn zeta. rewrite Hs, HE, HV.
  reflexivity.
Qed.

(** X12: an absolute [local_dir] is the destination, whatever
    [output_dir] is. *)
Theorem absolute_local_dir_is_destination repo_id directory l od token mw :
  PyStr.startswith PyStr.slash l = true ->
  map req_local_dir
    (requests (events (download repo_id directory (Some l) od token mw)))
  = [l].
Proof.
  intros Hl. rewrite download_hf_directory_requests.
  unfold request_of, destination. cbn [map req_local_dir].
  destruct od as [o |]; [| reflexivity].
  unfold OsPath.join. now rewrite Hl.
Qed.

(** X14: the inclusion patterns are those of the stripped directory:
    slashes around the directory do not change them. *)
Theorem allow_patterns_strip_invariant repo_id directory ld od token mw :
  map req_allow_patterns
    (requests (events (download repo_id directory ld od token mw)))
  = map req_allow_patterns
      (requests (events (download repo_id
                           (PyStr.strip PyStr.slash directory)
                           ld od token mw))).
Proof.
  rewrite !download_hf_directory_requests. simpl.
  now rewrite strip_idem.
Qed.

(** X16: when the transfer raises what is no [Exception] (a
    [KeyboardInterrupt], say), nothing is printed after the request and
    [main] raises it. *)
Theorem main_transfer_interrupted args repo_id directory e :
  parse_hf_url urlparse (arg_url args) = Ok (repo_id, directory) ->
  directory <> "" ->
  snapshot_download (request_for args repo_id directory) = Raise e ->
  isinstance_Exception e = false ->
  run_main args
  = (Raise e,
     [Print ("Repository: " ++ repo_id);
      Print ("Directory: " ++ directory);
      Print (first_line repo_id directory (arg_local_dir args)
               (arg_output_dir args));
      SnapshotDownload (request_for args repo_id directory)]).
Proof.
  intros Hp Hd Hs HE. rewrite (main_downloads _ _ _ _ _ _ _ Hp Hd).
  rewrite download_hf_directory_run. cbn zeta. rewrite Hs, HE.
  assert (HV : isinstance_ValueError e = false).
  { unfold isinstance_ValueError, isinstance_Exception in *.
    destruct (exn_cls e); [discriminate | reflexivity | reflexivity]. }
  rewrite HV. reflexivity.
Qed.

Lemma main_congr args1 args2 :
  parse_hf_url urlparse (arg_url args1)
  = parse_hf_url urlparse (arg_url args2) ->
  arg_local_dir args1 = arg_local_dir args2 ->
  arg_output_dir args1 = arg_output_dir args2 ->
  arg_token args1 = arg_token args2 ->
  arg_max_workers args1 = arg_max_workers args2 ->
  run_main args1 = run_main args2.
Proof.
  intros Hp Hl Ho Ht Hm. unfold main. now rewrite Hp, Hl, Ho, Ht, Hm.
Qed.

(** X15: two runs whose URLs differ in the branch only do the same: the
    branch reaches neither the printed lines nor the request. *)
Theorem main_branch_ignored args1 args2 p1 p2 ns repo b1 b2 d rest :
  urlparse (arg_url args1) = Ok p1 ->
  urlparse (arg_url args2) = Ok p2 ->
  netloc p1 = netloc p2 ->
  path_parts p1 = ns :: repo :: "tree" :: b1 :: d :: rest ->
  path_parts p2 = ns :: repo :: "tree" :: b2 :: d :: rest ->
  arg_local_dir args1 = arg_local_dir args2 ->
  arg_output_dir args1 = arg_output_dir args2 ->
  arg_token args1 = arg_token args2 ->
  arg_max_workers args1 = arg_max_workers args2 ->
  run_main args1 = run_main args2.
Proof.
  intros H1 H2 Hn Hp1 Hp2. apply main_congr.
  exact (parse_hf_url_branch_ignored _ _ _ _ _ _ _ _ _ _ _ H1 H2 Hn Hp1 Hp2).
Qed.

End Runs.

Lemma replace_idem a b s :
  a <> b -> PyStr.replace a b (PyStr.replace a b s) = PyStr.replace a b s.
Proof.
  intros Hab. induction s as [| x s IH]; [reflexivity |]. simpl.
  rewrite IH. f_equal.
  destruct (Ascii.eqb x a) eqn:Hx; [| now rewrite Hx].
  assert (Hb : Ascii.eqb b a = false) by (apply Ascii.eqb_neq; congruence).
  now rewrite Hb.
Qed.

(** X13: the derived folder name holds no slash, and it is the same for
    names that differ only in having "_" where the other has "/": a
    directory c/d and a directory c_d of one repository share it. *)
Theorem default_local_dir_flattens repo_id directory :
  PyStr.contains PyStr.slash (default_local_dir repo_id directory) = false
  /\ default_local_dir repo_id directory
     = default_local_dir (PyStr.replace PyStr.slash PyStr.underscore repo_id)
         (PyStr.replace PyStr.slash PyStr.underscore directory).
Proof.
  unfold default_local_dir. split.
  - rewrite !contains_app, !contains_replace by discriminate. reflexivity.
  - now rewrite !replace_idem by discriminate.
Qed.

(** ** Instances of the further theorems *)

Lemma parse_hf_url_directory_empty_iff_witness :
  "vae/blocks" = "" <-> 6 = 2.
Proof.
  apply (parse_hf_url_directory_empty_iff UrlLib.urlparse url_blocks
           parsed_blocks "acme/widgets" "vae/blocks");
    reflexivity.
Defined.

Lemma parse_hf_url_directory_no_trailing_slash_witness :
  PyStr.endswith PyStr.slash "vae/blocks" = false.
Proof.
  apply (parse_hf_url_directory_no_trailing_slash UrlLib.urlparse
           "https://huggingface.co/acme/widgets/tree/main/vae/blocks//"
           "acme/widgets" "vae/blocks").
  reflexivity.
Defined.

Lemma parse_hf_url_repo_id_two_parts_witness :
  PyStr.split PyStr.slash "acme/widgets" = ["acme"; "widgets"]
  /\ "acme" <> "".
Proof.
  apply (parse_hf_url_repo_id_two_parts UrlLib.urlparse url_blocks
           parsed_blocks "acme/widgets" "vae/blocks");
    reflexivity.
Defined.

Lemma parse_hf_url_plain_reassembles_witness :
  "acme/widgets" ++ "/" ++ "vae" = "acme/widgets/vae".
Proof.
  apply (parse_hf_url_plain_reassembles UrlLib.urlparse url_plain
           parsed_plain "acme/widgets" "vae");
    [reflexivity | reflexivity | vm_compute; lia |].
  vm_compute. intros [H _]. lia.
Defined.

Lemma parse_hf_url_tree_reassembles_witness :
  "acme/widgets" ++ "/tree/" ++ "main" ++ "/" ++ "vae/blocks"
  = "acme/widgets/tree/main/vae/blocks".
Proof.
  apply (parse_hf_url_tree_reassembles UrlLib.urlparse url_blocks
           parsed_blocks "acme/widgets" "vae/blocks");
    [reflexivity | reflexivity | vm_compute; lia | reflexivity].
Defined.

Lemma parse_hf_url_outer_slashes_witness :
  parse_hf_url UrlLib.urlparse url_plain
  = parse_hf_url UrlLib.urlparse "https://huggingface.co//acme/widgets/vae/".
Proof.
  apply (parse_hf_url_outer_slashes UrlLib.urlparse url_plain
           "https://huggingface.co//acme/widgets/vae/"
           parsed_plain
           (mkParseResult "https" "huggingface.co" "//acme/widgets/vae/"
              "" "" ""));
    reflexivity.
Defined.

Lemma main_raises_only_foreign_witness :
  isinstance_ValueError (Exn OtherException "Connection refused") = false
  /\ (UrlLib.urlparse url_blocks = Raise (Exn OtherException "Connection refused")
      \/ exists req,
           requests (events (run transfer_offline args_blocks)) = [req]
           /\ transfer_offline req
              = Raise (Exn OtherException "Connection refused")).
Proof.
  apply (main_raises_only_foreign (OsPath.expanduser posix_env)
           (OsPath.abspath posix_env) transfer_offline UrlLib.urlparse
           args_blocks).
  reflexivity.
Defined.

Lemma main_success_witness :
  run transfer_ok args_blocks
  = (Ok tt,
     [Print "Repository: acme/widgets";
      Print "Directory: vae/blocks";
      Print "Downloading from acme/widgets/vae/blocks/ to acme_widgets_vae_blocks";
      SnapshotDownload
        (mkRequest "acme/widgets" ["vae/blocks/**/*"; "vae/blocks/*"]
           "acme_widgets_vae_blocks" None 2);
      Print "Download completed! Files saved to: acme_widgets_vae_blocks"]).
Proof.
  apply (main_success (OsPath.expanduser posix_env)
           (OsPath.abspath posix_env) transfer_ok UrlLib.urlparse
           args_blocks "acme/widgets" "vae/blocks" "acme_widgets_vae_blocks");
    [reflexivity | discriminate | reflexivity].
Defined.

Lemma main_transfer_failure_witness :
  run transfer_offline args_blocks
  = (Raise (Exn OtherException "Connection refused"),
     [Print "Repository: acme/widgets";
      Print "Directory: vae/blocks";
      Print "Downloading from acme/widgets/vae/blocks/ to acme_widgets_vae_blocks";
      SnapshotDownload
        (mkRequest "acme/widgets" ["vae/blocks/**/*"; "vae/blocks/*"]
           "acme_widgets_vae_blocks" None 2);
      Print "Error downloading files: Connection refused"]).
Proof.
  apply (main_transfer_failure (OsPath.expanduser posix_env)
           (OsPath.abspath posix_env) transfer_offline UrlLib.urlparse
           args_blocks "acme/widgets" "vae/blocks"
           (Exn OtherException "Connection refused"));
    [reflexivity | discriminate | reflexivity | reflexivity | reflexivity].
Defined.

Lemma main_transfer_interrupted_witness :
  run transfer_interrupted args_blocks
  = (Raise (Exn BaseExceptionOnly ""),
     [Print "Repository: acme/widgets";
      Print "Directory: vae/blocks";
      Print "Downloading from acme/widgets/vae/blocks/ to acme_widgets_vae_blocks";
      SnapshotDownload
        (mkRequest "acme/widgets" ["vae/blocks/**/*"; "vae/blocks/*"]
           "acme_widgets_vae_blocks" None 2)]).
Proof.
  apply (main_transfer_interrupted (OsPath.expanduser posix_env)
           (OsPath.abspath posix_env) transfer_interrupted UrlLib.urlparse
           args_blocks "acme/widgets" "vae/blocks"
           (Exn BaseExceptionOnly ""));
    [reflexivity | discriminate | reflexivity | reflexivity].
Defined.

Lemma absolute_local_dir_is_destination_witness :
  map req_local_dir
    (requests
       (events
          (download_hf_directory (OsPath.expanduser posix_env)
             (OsPath.abspath posix_env) transfer_ok "acme/widgets" "vae"
             (Some "/tmp/x") (Some "~/data") None 2)))
  = ["/tmp/x"].
Proof.
  apply (absolute_local_dir_is_destination (OsPath.expanduser posix_env)
           (OsPath.abspath posix_env) transfer_ok "acme/widgets" "vae"
           "/tmp/x" (Some "~/data") None 2).
  reflexivity.
Defined.

Lemma main_branch_ignored_witness :
  run transfer_ok args_blocks
  = run transfer_ok
      (mkArgs "https://huggingface.co/acme/widgets/tree/dev/vae/blocks"
         None None None 2).
Proof.
  apply (main_branch_ignored (OsPath.expanduser posix_env)
           (OsPath.abspath posix_env) transfer_ok UrlLib.urlparse
           args_blocks
           (mkArgs "https://huggingface.co/acme/widgets/tree/dev/vae/blocks"
              None None None 2)
           parsed_blocks
           (mkParseResult "https" "huggingface.co"
              "/acme/widgets/tree/dev/vae/blocks" "" "" "")
           "acme" "widgets" "main" "dev" "vae" ["blocks"]);
    reflexivity.
Defined.
